(** * rsocket-py: route registry, routing request handler, channel responder
      and payload fragmentation

    A shallow embedding of
      - rsocket/routing/request_router.py          (decorator_factory, RequestRouter)
      - rsocket/routing/routing_request_handler.py (RoutingRequestHandler)
      - rsocket/handlers/request_cahnnel_responder.py (RequestChannelResponder)
    together with a model of the fragmenting frame and of the fragment cache
    that tests/rsocket/test_fragments.py drives.

    Python objects that are mutated in place are threaded explicitly: a
    function returns its outcome next to the new state, also when it raises,
    so that what a failed call leaves behind can be stated.  Calls into
    collaborators (user handlers, the authentication verifier, the logger,
    the socket) are recorded, in order, in a trace of events. *)

From stdpp Require Import gmap strings list fin_maps.
From Stdlib Require Import Strings.Byte.

Set Default Proof Using "Type".

(** ** Python values, exceptions and outcomes *)

Abbreviation bytes := (list Byte.byte).

#[global] Instance byte_eq_dec : EqDecision Byte.byte := Byte.byte_eq_dec.

(** The bytes literal b'...' of an ASCII text. *)
Definition b (s : string) : bytes := String.list_byte_of_string s.

(** Modelled from the spec: rsocket.frame.FrameType, the enumeration of the
    frame types of section 3 of the specification (the module rsocket/frame.py
    is not part of the sources at hand). *)
Inductive FrameType :=
| SETUP | LEASE | KEEPALIVE
| REQUEST_RESPONSE | REQUEST_FNF | REQUEST_STREAM | REQUEST_CHANNEL
| REQUEST_N | CANCEL | PAYLOAD | ERROR | METADATA_PUSH
| RESUME | RESUME_OK | EXT.

#[global] Instance FrameType_eq_dec : EqDecision FrameType.
Proof. solve_decision. Defined.

(** rsocket.payload.Payload: data and metadata, either may be None. *)
Record Payload := mkPayload { data : option bytes; metadata : option bytes }.

(** Modelled from the spec: the authentication metadata of section 3, simple
    (username and password) or bearer (token). *)
Inductive Authentication :=
| AuthenticationSimple (username password : bytes)
| AuthenticationBearer (token : bytes).

(** The items of a parsed composite metadata: the two classes the routing
    handler tests with isinstance, and any other entry. *)
Inductive CompositeMetadataItem :=
| RoutingMetadata (tags : list bytes)
| AuthenticationContent (authentication : Authentication)
| OtherItem (mime content : bytes).

Record CompositeMetadata := mkCompositeMetadata { items : list CompositeMetadataItem }.

(** Python is dynamically typed: what is passed to the router and on to the
    route processors is a value of any class. *)
Inductive pyval :=
| VNone
| VFrameType (ft : FrameType)
| VStr (s : string)
| VBytes (bs : bytes)
| VPayload (p : Payload)
| VCompositeMetadata (cm : CompositeMetadata)
| VObject (cls : string) (id : nat).       (* an instance of any other class *)

(** The double quote character, for the messages that contain one. *)
Definition dq : string := String (Ascii.ascii_of_nat 34) EmptyString.

(** Instances of Exception, which is what the [except Exception] clauses of
    the handler catch. *)
Inductive exn :=
| Exception (msg : string)
| KeyError (args : list pyval)
| TypeError (msg : string)
| IndexError (msg : string)
| RSocketEmptyRoute (function_name : string)
| RSocketUnknownRoute (route : pyval)
| RSocketFrameFragmentDifferentType
| ApplicationError (cls msg : string).

Inductive result (A : Type) :=
| Ok (a : A)
| Raise (e : exn).
Arguments Ok {A} a.
Arguments Raise {A} e.

(** ** Route processors *)

(** The annotation of a parameter, as inspect.signature reports it. *)
Inductive annotation :=
| AnnEmpty                      (* Parameter.empty: no annotation *)
| AnnPayload                    (* the class Payload *)
| AnnClass (cls : string).      (* any other class *)

#[global] Instance annotation_eq_dec : EqDecision annotation.
Proof. solve_decision. Defined.

Abbreviation kwargs := (list (string * pyval)).

(** A decorated method: its name, the parameters of its signature in order,
    and what awaiting a call of it with keyword arguments gives. *)
Record decorated_method := mkMethod {
  __name__ : string;
  parameters : list (string * annotation);
  call : kwargs -> result pyval
}.

(** ** Events and the trace monad *)

Inductive event :=
| EvInvoke (function_name : string) (route_kwargs : kwargs)
| EvVerify (route : string) (authentication : Authentication)
| EvRouterRoute (args : list pyval)
| EvLogError (msg : string) (exc_info : exn).

Abbreviation trace := (list event).

(** A computation that may raise and that appends to the trace. *)
Definition M (A : Type) : Type := trace -> result A * trace.

Definition ret {A} (a : A) : M A := fun tr => (Ok a, tr).
Definition raise {A} (e : exn) : M A := fun tr => (Raise e, tr).
Definition emit (ev : event) : M unit := fun tr => (Ok tt, tr ++ [ev]).
Definition lift {A} (r : result A) : M A := fun tr => (r, tr).
Definition bind {A B} (c : M A) (k : A -> M B) : M B :=
  fun tr => match c tr with
            | (Ok a, tr') => k a tr'
            | (Raise e, tr') => (Raise e, tr')
            end.
(** try: c / except Exception as e: h e *)
Definition try_except {A} (c : M A) (h : exn -> M A) : M A :=
  fun tr => match c tr with
            | (Ok a, tr') => (Ok a, tr')
            | (Raise e, tr') => h e tr'
            end.

Notation "'let!' x ':=' c 'in' k" := (bind c (fun x => k))
  (at level 10, x name, c at level 100, k at level 200).
Notation "c ';;' k" := (bind c (fun _ => k))
  (at level 100, k at level 200, right associativity).

(** ** rsocket/routing/request_router.py *)

(** Modelled from the spec: rsocket.frame_helpers.safe_len (the module is not
    part of the sources at hand): the length of the route, 0 for None; the
    specification and tests/rsocket/test_request_router.py treat the null route
    like the empty one. *)
Definition safe_len (route : option string) : nat :=
  match route with
  | None => 0
  | Some s => String.length s
  end.

Definition duplicate_route_message : string :=
  "Duplicate route " +:+ dq +:+ "%s" +:+ dq +:+ " already registered".

(** decorator_factory(container, route)(function): the container is the
    dictionary the decorator mutates; it is returned next to the outcome. *)
Definition decorator_factory (container : gmap string decorated_method)
    (route : option string) (function : decorated_method)
  : result decorated_method * gmap string decorated_method :=
  if Nat.eqb (safe_len route) 0 then
    (Raise (RSocketEmptyRoute (__name__ function)), container)
  else
    match route with
    | Some r =>
        match container !! r with
        | Some _ => (Raise (KeyError [VStr duplicate_route_message; VStr r]), container)
        | None => (Ok function, <[r := function]> container)
        end
    | None => (* not reached: safe_len None = 0 *)
        (Raise (RSocketEmptyRoute (__name__ function)), container)
    end.

Module Handlers.
(** The dataclass Handlers: the unknown-route fallbacks, None by default. *)
Record t := mk {
  response : option decorated_method;
  stream : option decorated_method;
  channel : option decorated_method;
  fire_and_forget : option decorated_method;
  metadata_push : option decorated_method
}.
Definition init : t := mk None None None None None.
End Handlers.

(** The five route dictionaries of a router.  _route_map_by_frame_type holds
    references to these same dictionaries, not copies. *)
Inductive routes_ref :=
| channel_routes_ref | fnf_routes_ref | stream_routes_ref
| response_routes_ref | metadata_push_ref.

#[global] Instance routes_ref_eq_dec : EqDecision routes_ref.
Proof. solve_decision. Defined.

Module RequestRouter.

Record t := mk {
  _payload_mapper : annotation -> pyval -> result pyval;
  _channel_routes : gmap string decorated_method;
  _stream_routes : gmap string decorated_method;
  _response_routes : gmap string decorated_method;
  _fnf_routes : gmap string decorated_method;
  _metadata_push : gmap string decorated_method;
  _unknown : Handlers.t
}.

(** The default payload mapper, lambda cls, _: _ *)
Definition default_payload_mapper : annotation -> pyval -> result pyval :=
  fun cls p => Ok p.

(** __init__ *)
Definition init (payload_mapper : annotation -> pyval -> result pyval) : t :=
  mk payload_mapper ∅ ∅ ∅ ∅ ∅ Handlers.init.

Definition _route_map_by_frame_type (frame_type : FrameType) : option routes_ref :=
  match frame_type with
  | REQUEST_CHANNEL => Some channel_routes_ref
  | REQUEST_FNF => Some fnf_routes_ref
  | REQUEST_STREAM => Some stream_routes_ref
  | REQUEST_RESPONSE => Some response_routes_ref
  | METADATA_PUSH => Some metadata_push_ref
  | _ => None
  end.

Definition deref (self : t) (ref : routes_ref) : gmap string decorated_method :=
  match ref with
  | channel_routes_ref => _channel_routes self
  | fnf_routes_ref => _fnf_routes self
  | stream_routes_ref => _stream_routes self
  | response_routes_ref => _response_routes self
  | metadata_push_ref => _metadata_push self
  end.

Definition set_unknown (u : Handlers.t) (self : t) : t :=
  mk (_payload_mapper self) (_channel_routes self) (_stream_routes self)
     (_response_routes self) (_fnf_routes self) (_metadata_push self) u.

Definition response (self : t) (route : option string) (function : decorated_method)
  : result decorated_method * t :=
  let '(r, c) := decorator_factory (_response_routes self) route function in
  (r, mk (_payload_mapper self) (_channel_routes self) (_stream_routes self)
         c (_fnf_routes self) (_metadata_push self) (_unknown self)).

Definition stream (self : t) (route : option string) (function : decorated_method)
  : result decorated_method * t :=
  let '(r, c) := decorator_factory (_stream_routes self) route function in
  (r, mk (_payload_mapper self) (_channel_routes self) c
         (_response_routes self) (_fnf_routes self) (_metadata_push self) (_unknown self)).

Definition channel (self : t) (route : option string) (function : decorated_method)
  : result decorated_method * t :=
  let '(r, c) := decorator_factory (_channel_routes self) route function in
  (r, mk (_payload_mapper self) c (_stream_routes self)
         (_response_routes self) (_fnf_routes self) (_metadata_push self) (_unknown self)).

Definition fire_and_forget (self : t) (route : option string) (function : decorated_method)
  : result decorated_method * t :=
  let '(r, c) := decorator_factory (_fnf_routes self) route function in
  (r, mk (_payload_mapper self) (_channel_routes self) (_stream_routes self)
         (_response_routes self) c (_metadata_push self) (_unknown self)).

Definition metadata_push (self : t) (route : option string) (function : decorated_method)
  : result decorated_method * t :=
  let '(r, c) := decorator_factory (_metadata_push self) route function in
  (r, mk (_payload_mapper self) (_channel_routes self) (_stream_routes self)
         (_response_routes self) (_fnf_routes self) c (_unknown self)).

Definition response_unknown (self : t) (function : decorated_method)
  : decorated_method * t :=
  let u := _unknown self in
  (function, set_unknown (Handlers.mk (Some function) (Handlers.stream u) (Handlers.channel u)
                            (Handlers.fire_and_forget u) (Handlers.metadata_push u)) self).

Definition stream_unknown (self : t) (function : decorated_method)
  : decorated_method * t :=
  let u := _unknown self in
  (function, set_unknown (Handlers.mk (Handlers.response u) (Some function) (Handlers.channel u)
                            (Handlers.fire_and_forget u) (Handlers.metadata_push u)) self).

Definition channel_unknown (self : t) (function : decorated_method)
  : decorated_method * t :=
  let u := _unknown self in
  (function, set_unknown (Handlers.mk (Handlers.response u) (Handlers.stream u) (Some function)
                            (Handlers.fire_and_forget u) (Handlers.metadata_push u)) self).

Definition fire_and_forget_unknown (self : t) (function : decorated_method)
  : decorated_method * t :=
  let u := _unknown self in
  (function, set_unknown (Handlers.mk (Handlers.response u) (Handlers.stream u) (Handlers.channel u)
                            (Some function) (Handlers.metadata_push u)) self).

Definition metadata_push_unknown (self : t) (function : decorated_method)
  : decorated_method * t :=
  let u := _unknown self in
  (function, set_unknown (Handlers.mk (Handlers.response u) (Handlers.stream u) (Handlers.channel u)
                            (Handlers.fire_and_forget u) (Some function)) self).

(** _get_unknown_route: falls off the end, returning None, for a frame type
    that is none of the five. *)
Definition _get_unknown_route (self : t) (frame_type : FrameType) : option decorated_method :=
  if decide (frame_type = REQUEST_RESPONSE) then Handlers.response (_unknown self)
  else if decide (frame_type = REQUEST_STREAM) then Handlers.stream (_unknown self)
  else if decide (frame_type = REQUEST_CHANNEL) then Handlers.channel (_unknown self)
  else if decide (frame_type = REQUEST_FNF) then Handlers.fire_and_forget (_unknown self)
  else if decide (frame_type = METADATA_PUSH) then Handlers.metadata_push (_unknown self)
  else None.

(** _collect_route_arguments: the loop over the parameters of the
    signature; [payload] is the loop-carried variable that a mapped
    parameter overwrites. *)
Fixpoint collect_loop (self : t) (params : list (string * annotation))
    (payload composite_metadata : pyval) (route_kwargs : kwargs) : result kwargs :=
  match params with
  | [] => Ok route_kwargs
  | (parameter, ann) :: rest =>
      if String.eqb "composite_metadata" parameter then
        collect_loop self rest payload composite_metadata
          (route_kwargs ++ [("composite_metadata", composite_metadata)])
      else
        if negb (bool_decide (ann = AnnPayload ∨ ann = AnnEmpty)) then
          match _payload_mapper self ann payload with
          | Ok payload' =>
              collect_loop self rest payload' composite_metadata
                (route_kwargs ++ [(parameter, payload')])
          | Raise e => Raise e
          end
        else
          collect_loop self rest payload composite_metadata
            (route_kwargs ++ [(parameter, payload)])
  end.

Definition _collect_route_arguments (self : t) (route_processor : decorated_method)
    (payload composite_metadata : pyval) : result kwargs :=
  collect_loop self (parameters route_processor) payload composite_metadata [].

(** route(frame_type, route, payload, composite_metadata), once its four
    parameters are bound. *)
Definition route (self : t) (frame_type route payload composite_metadata : pyval)
  : M pyval :=
  match frame_type with
  | VFrameType ft =>
      match _route_map_by_frame_type ft with
      | Some ref =>
          let route_processor :=
            match route with
            | VStr r =>
                match deref self ref !! r with
                | Some f => Some f
                | None => _get_unknown_route self ft
                end
            | _ => _get_unknown_route self ft
            end in
          match route_processor with
          | None => raise (RSocketUnknownRoute route)
          | Some f =>
              let! route_kwargs := lift (_collect_route_arguments self f payload composite_metadata) in
              emit (EvInvoke (__name__ f) route_kwargs) ;;
              lift (call f route_kwargs)
          end
      | None => raise (KeyError [frame_type])
      end
  | _ => raise (KeyError [frame_type])
  end.

(** The names of the parameters of route, after self. *)
Definition route_parameters : list string :=
  ["frame_type"; "route"; "payload"; "composite_metadata"].

(** A call self.route( *args ) with positional arguments only: Python binds
    them to the parameters in order and raises TypeError, before the body
    runs, when a parameter is left without a value or an argument without
    a parameter. *)
Definition route_call (self : t) (args : list pyval) : M pyval :=
  emit (EvRouterRoute args) ;;
  match args with
  | [a0; a1; a2; a3] => route self a0 a1 a2 a3
  | _ =>
      if length args <? length route_parameters then
        raise (TypeError ("route() missing required positional arguments: "
                          +:+ String.concat ", " (drop (length args) route_parameters)))
      else
        raise (TypeError "route() takes 5 positional arguments but more were given")
  end.

End RequestRouter.

(** ** rsocket/routing/routing_request_handler.py *)

(** Modelled from the spec: the name of
    WellKnownMimeTypes.MESSAGE_RSOCKET_COMPOSITE_METADATA, id 0x7A of the
    registry of section 6. *)
Definition MESSAGE_RSOCKET_COMPOSITE_METADATA_name : bytes :=
  b "message/x.rsocket.composite-metadata.v0".

(** An authentication verifier: application code, awaited with the route and
    the authentication; it returns nothing or raises. *)
Abbreviation verifier := (string -> Authentication -> result unit).

(** Modelled from the spec: rsocket.helpers.always_allow_authenticator, the
    default always-allow verifier. *)
Definition always_allow_authenticator : verifier := fun _ _ => Ok tt.

(** What the request_* methods hand back to the connection engine. *)
Inductive handled :=
| Returned (value : pyval)              (* what the route processor returned *)
| ErrorFuture (exception : exn)         (* a future with set_exception(exception) *)
| ErrorStream (exception : exn)         (* ErrorStream(exception) *)
| ErrorStreamAndNullSubscriber (exception : exn).   (* ErrorStream(exception), NullSubscriber() *)

Module RoutingRequestHandler.

Record t := mk {
  router : RequestRouter.t;
  data_encoding : option bytes;
  metadata_encoding : option bytes;
  authentication_verifier : option verifier;
  _lease_ttl : option Z;
  _lease_max_requests : option Z
}.

(** __init__(socket, router, authentication_verifier, lease_ttl,
    lease_max_requests); the encodings are set by on_setup. *)
Definition init (router : RequestRouter.t) (authentication_verifier : option verifier)
    (lease_ttl lease_max_requests : option Z) : t :=
  mk router None None authentication_verifier lease_ttl lease_max_requests.

Section Collaborators.

(** CompositeMetadata.parse, from the metadata of the payload to the items,
    and bytes.decode: both outside the sources at hand, both may raise. *)
Variable parse : option bytes -> result (list CompositeMetadataItem).
Variable decode : bytes -> result string.

(** BaseRequestHandler.on_setup, run on the handler and the trace. *)
Variable super_on_setup : t -> bytes -> bytes -> trace -> result unit * t * trace.

Definition on_setup (self : t) (data_encoding' metadata_encoding' : bytes) (tr : trace)
  : result unit * t * trace :=
  if negb (bool_decide (metadata_encoding' = MESSAGE_RSOCKET_COMPOSITE_METADATA_name)) then
    (Raise (Exception "Setup frame did not specify composite metadata. required for routing handler"),
     self, tr)
  else
    let self1 := mk (router self) (Some data_encoding') (metadata_encoding self)
                    (authentication_verifier self) (_lease_ttl self) (_lease_max_requests self) in
    let self2 := mk (router self1) (data_encoding self1) (Some metadata_encoding')
                    (authentication_verifier self1) (_lease_ttl self1) (_lease_max_requests self1) in
    super_on_setup self2 data_encoding' metadata_encoding' tr.

Fixpoint require_route_loop (its : list CompositeMetadataItem) : result string :=
  match its with
  | [] => Raise (Exception "No route found in request")
  | RoutingMetadata tags :: _ =>
      match tags with
      | tag0 :: _ => decode tag0
      | [] => Raise (IndexError "list index out of range")
      end
  | _ :: rest => require_route_loop rest
  end.

Definition _require_route (composite_metadata : CompositeMetadata) : result string :=
  require_route_loop (items composite_metadata).

Fixpoint verify_loop (v : verifier) (route : string) (its : list CompositeMetadataItem)
  : M unit :=
  match its with
  | [] => raise (Exception "Authentication required but not provided")
  | AuthenticationContent authentication :: _ =>
      emit (EvVerify route authentication) ;;
      lift (v route authentication)
  | _ :: rest => verify_loop v route rest
  end.

Definition _verify_authentication (self : t) (route : string)
    (composite_metadata : CompositeMetadata) : M unit :=
  match authentication_verifier self with
  | Some v => verify_loop v route (items composite_metadata)
  | None => ret tt
  end.

Definition _parse_and_route (self : t) (payload : Payload) : M pyval :=
  let! its := lift (parse (metadata payload)) in
  let composite_metadata := mkCompositeMetadata its in
  let! route := lift (_require_route composite_metadata) in
  _verify_authentication self route composite_metadata ;;
  RequestRouter.route_call (router self)
    [VStr route; VPayload payload; VCompositeMetadata composite_metadata].


(** The coroutine has no return statement: its value is None. *)
Definition request_fire_and_forget (self : t) (payload : Payload) : M unit :=
  try_except
    (_parse_and_route self payload ;; ret tt)
    (fun exception => emit (EvLogError "Error" exception)).

Definition request_response (self : t) (payload : Payload) : M handled :=
  try_except
    (let! v := _parse_and_route self payload in ret (Returned v))
    (fun exception => ret (ErrorFuture exception)).


End Collaborators.

End RoutingRequestHandler.

(** ** Frames *)

Module Frame.

(** Modelled from the spec: the frames of rsocket/frame.py (not part of the
    sources at hand), with the fields that the responder, the tests and
    section 3 of the specification name.  [_fragments_left] is the state of
    the fragment generator of a fragmentable frame: None until the first
    call of get_next_fragment, then the metadata and data still to be sent. *)
Record t := mk {
  frame_type : FrameType;
  stream_id : Z;
  data : option bytes;
  metadata : option bytes;
  flags_follows : bool;
  flags_complete : bool;
  flags_next : bool;
  initial_request_n : Z;
  fragment_size_bytes : option nat;
  _fragments_left : option (bytes * bytes)
}.

Definition with_fragments_left (left : option (bytes * bytes)) (f : t) : t :=
  mk (frame_type f) (stream_id f) (data f) (metadata f) (flags_follows f)
     (flags_complete f) (flags_next f) (initial_request_n f) (fragment_size_bytes f) left.

End Frame.

(** ** rsocket/handlers/request_cahnnel_responder.py *)

Module RequestChannelResponder.

(** The calls the responder makes on its socket, on the subscription of its
    subscriber and on its base class RequestChannelCommon (none of which is
    part of the sources at hand), in the order they are made. *)
Inductive action :=
| send_complete (stream : Z)                       (* self.socket.send_complete(self.stream) *)
| mark_completed_and_finish (sent : bool)          (* self.mark_completed_and_finish(sent=...) *)
| subscription_request (subscription : nat) (n : Z) (* self.subscriber.subscription.request(n) *)
| _complete_remote_subscriber                      (* self._complete_remote_subscriber() *)
| super_frame_received (frame : Frame.t).          (* super().frame_received(frame) *)

Record t := mk {
  stream : Z;
  subscriber_subscription : option nat     (* self.subscriber.subscription, an object or None *)
}.

Definition frame_received (self : t) (frame : Frame.t) (done : list action) : list action :=
  if bool_decide (Frame.frame_type frame = REQUEST_CHANNEL) then
    let done1 :=
      match subscriber_subscription self with
      | None => (done ++ [send_complete (stream self)]) ++ [mark_completed_and_finish true]
      | Some subscription =>
          done ++ [subscription_request subscription (Frame.initial_request_n frame)]
      end in
    if Frame.flags_complete frame then done1 ++ [_complete_remote_subscriber]
    else done1
  else
    done ++ [super_frame_received frame].

End RequestChannelResponder.

(** ** Fragmentation and the fragment cache *)

Definition or_empty (section : option bytes) : bytes := default [] section.

Definition is_empty (bs : bytes) : bool :=
  match bs with [] => true | _ => false end.

(** Modelled from the spec: the slicing of section 4.2 (rsocket/frame.py is
    not part of the sources at hand): metadata precedes data and a split may
    fall inside a section, so a fragment takes metadata first and fills what
    room is left with data.  The counts expected by
    tests/rsocket/test_fragments.py fix the size of a fragment:
    fragment_size_bytes bytes of metadata and data together.  The result is
    the two slices and what is left of the two sections. *)
Definition next_slices (size : nat) (md : bytes * bytes)
  : (bytes * bytes) * (bytes * bytes) :=
  let '(m, d) := md in
  let m_slice := take size m in
  let room := size - length m_slice in
  ((m_slice, take room d), (drop size m, drop room d)).

(** Modelled from the spec: FragmentableFrame.get_next_fragment of
    rsocket/frame.py, which is not part of the sources at hand.  Section 4.2:
    a logical frame is split into a head frame of its own type and
    continuation PAYLOAD frames; all but the last carry FOLLOWS; a fragment
    carries the slice of the metadata and the slice of the data that fall
    into it.  A frame without a fragment size is its own single fragment.
    After the last fragment the call returns None.  The frame is returned
    with the new state of its generator. *)
Definition get_next_fragment (self : Frame.t) : option Frame.t * Frame.t :=
  match Frame.fragment_size_bytes self with
  | None =>
      match Frame._fragments_left self with
      | None => (Some self, Frame.with_fragments_left (Some ([], [])) self)
      | Some _ => (None, self)
      end
  | Some size =>
      let first := bool_decide (Frame._fragments_left self = None) in
      let left := default (or_empty (Frame.metadata self), or_empty (Frame.data self))
                          (Frame._fragments_left self) in
      if negb first && is_empty left.1 && is_empty left.2 then (None, self)
      else
        let '((m_slice, d_slice), left') := next_slices size left in
        let follows := negb (is_empty left'.1 && is_empty left'.2) in
        (Some (Frame.mk (if first then Frame.frame_type self else PAYLOAD)
                        (Frame.stream_id self) (Some d_slice) (Some m_slice)
                        follows (Frame.flags_complete self) (Frame.flags_next self)
                        (Frame.initial_request_n self) None None),
         Frame.with_fragments_left (Some left') self)
  end.

(** fragment_generator of tests/rsocket/test_fragments.py: the loop
    [while True] that collects the fragments until get_next_fragment returns
    None, here with a bound on the number of iterations; None when the bound
    is reached before the loop ends. *)
Fixpoint fragment_generator (fuel : nat) (frame : Frame.t) : option (list Frame.t) :=
  match fuel with
  | 0 => None
  | S fuel' =>
      match get_next_fragment frame with
      | (Some next_fragment, frame') =>
          match fragment_generator fuel' frame' with
          | Some rest => Some (next_fragment :: rest)
          | None => None
          end
      | (None, _) => Some []
      end
  end.

(** Modelled from the spec: the fragment accumulator of section 3,
    first_frame_type, accumulated_data and accumulated_metadata. *)
Record FragmentAccumulator := mkAccumulator {
  first_frame_type : FrameType;
  accumulated_data : bytes;
  accumulated_metadata : bytes
}.

(** Modelled from the spec: a later fragment is a continuation PAYLOAD frame
    (section 4.2) or repeats the type of the first; any other type
    contradicts the first. *)
Definition contradicts (first next : FrameType) : bool :=
  negb (bool_decide (next = PAYLOAD)) && negb (bool_decide (next = first)).

Module FrameFragmentCache.

(** Modelled from the spec: FrameFragmentCache of
    rsocket/frame_fragment_cache.py, which is not part of the sources at hand.
    Sections 3 and 4.2: the cache is keyed by stream id; the accumulator is
    created on the first FOLLOWS frame; a frame with FOLLOWS appends and
    nothing is returned; a frame without FOLLOWS finalizes, the entry is
    consumed and the combined frame of the head type is returned; a fragment
    whose type contradicts the first fails with FragmentDifferentType.  A
    frame without FOLLOWS on a stream without accumulator is complete and is
    returned as it is. *)
Record t := mk { _frames_by_stream_id : gmap Z FragmentAccumulator }.

(** FrameFragmentCache(): no stream has an accumulator. *)
Definition init : t := mk ∅.

(** Modelled from the spec: FrameFragmentCache.append, by the rules above;
    the cache is returned next to the outcome. *)
Definition append (self : t) (frame : Frame.t) : result (option Frame.t) * t :=
  match _frames_by_stream_id self !! Frame.stream_id frame with
  | None =>
      if Frame.flags_follows frame then
        (Ok None,
         mk (<[Frame.stream_id frame :=
                 mkAccumulator (Frame.frame_type frame)
                               (or_empty (Frame.data frame))
                               (or_empty (Frame.metadata frame))]>
               (_frames_by_stream_id self)))
      else (Ok (Some frame), self)
  | Some acc =>
      if contradicts (first_frame_type acc) (Frame.frame_type frame) then
        (Raise RSocketFrameFragmentDifferentType, self)
      else
        let acc' := mkAccumulator (first_frame_type acc)
                      (accumulated_data acc ++ or_empty (Frame.data frame))
                      (accumulated_metadata acc ++ or_empty (Frame.metadata frame)) in
        if Frame.flags_follows frame then
          (Ok None, mk (<[Frame.stream_id frame := acc']> (_frames_by_stream_id self)))
        else
          (Ok (Some (Frame.mk (first_frame_type acc') (Frame.stream_id frame)
                              (Some (accumulated_data acc'))
                              (Some (accumulated_metadata acc'))
                              false (Frame.flags_complete frame) (Frame.flags_next frame)
                              (Frame.initial_request_n frame) None None)),
           mk (delete (Frame.stream_id frame) (_frames_by_stream_id self)))
  end.

End FrameFragmentCache.

(** The loop of the tests that feeds the fragments, in order, into the cache:
    combined is what the last append returned; an append that raises ends
    the loop. *)
Fixpoint append_all (cache : FrameFragmentCache.t) (combined : option Frame.t)
    (fragments : list Frame.t) : result (option Frame.t) * FrameFragmentCache.t :=
  match fragments with
  | [] => (Ok combined, cache)
  | fragment :: rest =>
      match FrameFragmentCache.append cache fragment with
      | (Ok combined', cache') => append_all cache' combined' rest
      | (Raise e, cache') => (Raise e, cache')
      end
  end.

(** The assertion of the tests on a section of the combined frame: equal to
    the original, where an empty or absent original may come back as None or
    as the empty bytes. *)
Definition section_restored (original combined : option bytes) : Prop :=
  if is_empty (or_empty original)
  then combined = None ∨ combined = Some []
  else combined = original.

(** The logical frame the tests build: a frame of the given type with data,
    metadata and fragment size set, its generator not started. *)
Definition logical_frame (ft : FrameType) (sid : Z) (data metadata : option bytes)
    (fragment_size_bytes : option nat) : Frame.t :=
  Frame.mk ft sid data metadata false false false 0 fragment_size_bytes None.

(** ** Vocabulary of the statements *)

(** The registration method of the router for a frame type: response for
    REQUEST_RESPONSE, stream for REQUEST_STREAM, and so on. *)
Definition registration (ft : FrameType)
  : option (RequestRouter.t -> option string -> decorated_method ->
            result decorated_method * RequestRouter.t) :=
  match ft with
  | REQUEST_RESPONSE => Some RequestRouter.response
  | REQUEST_STREAM => Some RequestRouter.stream
  | REQUEST_CHANNEL => Some RequestRouter.channel
  | REQUEST_FNF => Some RequestRouter.fire_and_forget
  | METADATA_PUSH => Some RequestRouter.metadata_push
  | _ => None
  end.

(** The registration method of the unknown-route fallback for a frame type. *)
Definition unknown_registration (ft : FrameType)
  : option (RequestRouter.t -> decorated_method -> decorated_method * RequestRouter.t) :=
  match ft with
  | REQUEST_RESPONSE => Some RequestRouter.response_unknown
  | REQUEST_STREAM => Some RequestRouter.stream_unknown
  | REQUEST_CHANNEL => Some RequestRouter.channel_unknown
  | REQUEST_FNF => Some RequestRouter.fire_and_forget_unknown
  | METADATA_PUSH => Some RequestRouter.metadata_push_unknown
  | _ => None
  end.

(** The route table that route consults for a frame type:
    self._route_map_by_frame_type[frame_type]. *)
Definition routes_for (self : RequestRouter.t) (ft : FrameType)
  : option (gmap string decorated_method) :=
  RequestRouter.deref self <$> RequestRouter._route_map_by_frame_type ft.

(** A route processor is reached: its arguments are collected, the call is
    recorded and its outcome is the outcome of the dispatch. *)
Definition reaches (self : RequestRouter.t) (f : decorated_method)
    (payload composite_metadata : pyval) : M pyval :=
  fun tr =>
    match RequestRouter._collect_route_arguments self f payload composite_metadata with
    | Ok route_kwargs => (call f route_kwargs, tr ++ [EvInvoke (__name__ f) route_kwargs])
    | Raise e => (Raise e, tr)
    end.

(** A use of one of the decorators of the router, whatever its outcome. *)
Inductive registration_call :=
| Register (ft : FrameType) (route : option string) (function : decorated_method)
| RegisterUnknown (ft : FrameType) (function : decorated_method).

Definition perform (self : RequestRouter.t) (c : registration_call) : RequestRouter.t :=
  match c with
  | Register ft route function =>
      match registration ft with
      | Some reg => (reg self route function).2
      | None => self
      end
  | RegisterUnknown ft function =>
      match unknown_registration ft with
      | Some reg => (reg self function).2
      | None => self
      end
  end.

(** The authentication of the first AuthenticationContent item, if any. *)
Fixpoint first_authentication (its : list CompositeMetadataItem) : option Authentication :=
  match its with
  | [] => None
  | AuthenticationContent authentication :: _ => Some authentication
  | _ :: rest => first_authentication rest
  end.

(** Concrete collaborators for the examples: a route processor that returns
    an object, a parser that finds given items in any metadata, the decoding
    of ASCII bytes, a verifier that refuses everybody and a base on_setup that
    does nothing. *)
Definition echo_method (name : string) : decorated_method :=
  mkMethod name [("payload", AnnEmpty); ("composite_metadata", AnnEmpty)]
           (fun _ => Ok (VObject "Future" 0)).

Definition parse_as (its : list CompositeMetadataItem)
  : option bytes -> result (list CompositeMetadataItem) := fun _ => Ok its.

Definition decode_ascii (bs : bytes) : result string := Ok (String.string_of_list_byte bs).

Definition deny_all : verifier := fun _ _ => Raise (Exception "Authentication error").

Definition nothing_on_setup (self : RoutingRequestHandler.t) (d m : bytes) (tr : trace)
  : result unit * RoutingRequestHandler.t * trace := (Ok tt, self, tr).

(** The router of tests/rsocket/test_routing.py: test.path registered with
    response on a fresh router. *)
Definition test_router : RequestRouter.t :=
  (RequestRouter.response (RequestRouter.init RequestRouter.default_payload_mapper)
     (Some "test.path") (echo_method "response")).2.

(** The route table and the fallback of a frame type as functions of the
    uses of the decorators so far: the first function registered under a
    route, and the last function registered as fallback. *)
Fixpoint first_registered (calls : list registration_call) (ft : FrameType) (r : string)
  : option decorated_method :=
  match calls with
  | [] => None
  | Register ft' (Some r') function :: rest =>
      if bool_decide (ft' = ft /\ r' = r) then Some function
      else first_registered rest ft r
  | _ :: rest => first_registered rest ft r
  end.

Fixpoint last_unknown (calls : list registration_call) (ft : FrameType)
  : option decorated_method :=
  match calls with
  | [] => None
  | RegisterUnknown ft' function :: rest =>
      match last_unknown rest ft with
      | Some later => Some later
      | None => if bool_decide (ft' = ft) then Some function else None
      end
  | _ :: rest => last_unknown rest ft
  end.

Definition is_invoke (ev : event) : bool :=
  match ev with
  | EvInvoke _ _ => true
  | _ => false
  end.

Definition is_verify (ev : event) : bool :=
  match ev with
  | EvVerify _ _ => true
  | _ => false
  end.

Definition is_routing_item (item : CompositeMetadataItem) : bool :=
  match item with
  | RoutingMetadata _ => true
  | _ => false
  end.

(** A parameter that is bound without a call of the payload mapper, or for
    which the payload mapper gives the payload back; and the keyword argument
    that such a parameter is bound to. *)
Definition passes (self : RequestRouter.t) (payload : pyval) (p : string * annotation) : Prop :=
  p.1 = "composite_metadata" \/ p.2 = AnnPayload \/ p.2 = AnnEmpty \/
  RequestRouter._payload_mapper self p.2 payload = Ok payload.

Definition bound_to (payload cm : pyval) (p : string * annotation) : string * pyval :=
  (p.1, if String.eqb "composite_metadata" p.1 then cm else payload).

(** ** examples/tutorial/reactivex/chat_server.py *)

Module ChatServer.

(** UserSessionData, with the fields that the functions below read; the
    queue of messages and the statistics are not touched by them. *)
Record UserSessionData := mkSession { username : string; session_id : string }.

(** ChatData: channel_users and channel_messages are defaultdicts, files and
    user_session_by_id are dicts.  A file holds payload.data, bytes or None. *)
Record ChatData := mkChatData {
  channel_users : gmap string (gset string);
  files : gmap string (option bytes);
  channel_messages : gmap string (list pyval);
  user_session_by_id : gmap string UserSessionData
}.

(** The module-level chat_data, shared by all sessions, and the channels for
    which a channel_message_delivery task was created, in order. *)
Record world := mkWorld {
  chat_data : ChatData;
  delivery_tasks : list string
}.

(** chat_data = ChatData() *)
Definition initial : world := mkWorld (mkChatData ∅ ∅ ∅ ∅) [].

(** What a route of the chat server returns: reactivex.empty() or
    reactivex.of(payload). *)
Inductive observable :=
| reactivex_empty
| reactivex_of (p : Payload).

(** ChatUserSession: self._session, None until login. *)
Abbreviation ChatUserSession := (option UserSessionData).

Definition attribute_error_session_id : exn :=
  ApplicationError "AttributeError" "'NoneType' object has no attribute 'session_id'".

Definition attribute_error_decode : exn :=
  ApplicationError "AttributeError" "'NoneType' object has no attribute 'decode'".

Definition ensure_channel_exists (channel_name : string) (w : world) : world :=
  let cd := chat_data w in
  if bool_decide (channel_name ∉ dom (channel_users cd)) then
    mkWorld (mkChatData (<[channel_name := ∅]> (channel_users cd)) (files cd)
                        (<[channel_name := []]> (channel_messages cd))
                        (user_session_by_id cd))
            (delivery_tasks w ++ [channel_name])
  else w.

(** chat_data.channel_users[channel_name] on the defaultdict: a missing key
    is inserted with an empty set. *)
Definition channel_users_getitem (channel_name : string) (w : world) : gset string * world :=
  let cd := chat_data w in
  match channel_users cd !! channel_name with
  | Some users => (users, w)
  | None =>
      (∅, mkWorld (mkChatData (<[channel_name := ∅]> (channel_users cd)) (files cd)
                              (channel_messages cd) (user_session_by_id cd))
                  (delivery_tasks w))
  end.

Definition set_channel_users (channel_name : string) (users : gset string) (w : world) : world :=
  let cd := chat_data w in
  mkWorld (mkChatData (<[channel_name := users]> (channel_users cd)) (files cd)
                      (channel_messages cd) (user_session_by_id cd))
          (delivery_tasks w).

Section Collaborators.

(** bytes.decode('utf-8'), rsocket.helpers.utf8_decode,
    rsocket.frame_helpers.ensure_bytes, CompositeMetadata.find_by_mimetype
    (the contents of the items found), the constant chat_filename_mimetype
    and composite(metadata_item(ensure_bytes(file_name), chat_filename_mimetype)):
    none of them is part of the sources at hand. *)
Variable decode : bytes -> result string.
Variable utf8_decode : option bytes -> result string.
Variable ensure_bytes : string -> bytes.
Variable find_by_mimetype : CompositeMetadata -> bytes -> list bytes.
Variable chat_filename_mimetype : bytes.
Variable file_name_metadata : string -> bytes.

(** payload.data.decode('utf-8') *)
Definition data_decode (payload : Payload) : result string :=
  match data payload with
  | Some bs => decode bs
  | None => Raise attribute_error_decode
  end.

Definition get_file_name (composite_metadata : CompositeMetadata) : result string :=
  match find_by_mimetype composite_metadata chat_filename_mimetype with
  | content :: _ => utf8_decode (Some content)
  | [] => Raise (IndexError "list index out of range")
  end.

(** ChatUserSession.remove *)
Definition remove (self : ChatUserSession) (w : world) : result unit * world :=
  match self with
  | None => (Raise attribute_error_session_id, w)
  | Some session =>
      let cd := chat_data w in
      match user_session_by_id cd !! session_id session with
      | Some _ =>
          (Ok tt, mkWorld (mkChatData (channel_users cd) (files cd) (channel_messages cd)
                                      (delete (session_id session) (user_session_by_id cd)))
                          (delivery_tasks w))
      | None => (Raise (KeyError [VStr (session_id session)]), w)
      end
  end.

(** login; uuid4 is the value of str(uuid.uuid4()). *)
Definition login (self : ChatUserSession) (payload : Payload) (uuid4 : string) (w : world)
  : result observable * ChatUserSession * world :=
  match utf8_decode (data payload) with
  | Raise e => (Raise e, self, w)
  | Ok username' =>
      let session := mkSession username' uuid4 in
      let cd := chat_data w in
      (Ok (reactivex_of (mkPayload (Some (ensure_bytes uuid4)) None)),
       Some session,
       mkWorld (mkChatData (channel_users cd) (files cd) (channel_messages cd)
                           (<[uuid4 := session]> (user_session_by_id cd)))
               (delivery_tasks w))
  end.

Definition join_channel (self : ChatUserSession) (payload : Payload) (w : world)
  : result observable * world :=
  match data_decode payload with
  | Raise e => (Raise e, w)
  | Ok channel_name =>
      let w1 := ensure_channel_exists channel_name w in
      let '(users, w2) := channel_users_getitem channel_name w1 in
      match self with
      | None => (Raise attribute_error_session_id, w2)
      | Some session =>
          (Ok reactivex_empty,
           set_channel_users channel_name (users ∪ {[session_id session]}) w2)
      end
  end.

Definition leave_channel (self : ChatUserSession) (payload : Payload) (w : world)
  : result observable * world :=
  match data_decode payload with
  | Raise e => (Raise e, w)
  | Ok channel_name =>
      let '(users, w1) := channel_users_getitem channel_name w in
      match self with
      | None => (Raise attribute_error_session_id, w1)
      | Some session =>
          (Ok reactivex_empty,
           set_channel_users channel_name (users ∖ {[session_id session]}) w1)
      end
  end.

Definition upload_file (payload : Payload) (composite_metadata : CompositeMetadata) (w : world)
  : result observable * world :=
  match get_file_name composite_metadata with
  | Raise e => (Raise e, w)
  | Ok file_name =>
      let cd := chat_data w in
      (Ok reactivex_empty,
       mkWorld (mkChatData (channel_users cd) (<[file_name := data payload]> (files cd))
                           (channel_messages cd) (user_session_by_id cd))
               (delivery_tasks w))
  end.

Definition download_file (composite_metadata : CompositeMetadata) (w : world)
  : result observable :=
  match get_file_name composite_metadata with
  | Raise e => Raise e
  | Ok file_name =>
      match files (chat_data w) !! file_name with
      | Some content =>
          Ok (reactivex_of (mkPayload content (Some (file_name_metadata file_name))))
      | None => Raise (KeyError [VStr file_name])
      end
  end.

(** A request served by the chat server, by a session in whatever state, or
    the close of a connection. *)
Inductive request :=
| Login (self : ChatUserSession) (payload : Payload) (uuid4 : string)
| JoinChannel (self : ChatUserSession) (payload : Payload)
| LeaveChannel (self : ChatUserSession) (payload : Payload)
| UploadFile (payload : Payload) (composite_metadata : CompositeMetadata)
| DownloadFile (composite_metadata : CompositeMetadata)
| OnClose (self : ChatUserSession).

(** What a request leaves in the shared state, whether it raises or not. *)
Definition serve (w : world) (rq : request) : world :=
  match rq with
  | Login self payload uuid4 => (login self payload uuid4 w).2
  | JoinChannel self payload => (join_channel self payload w).2
  | LeaveChannel self payload => (leave_channel self payload w).2
  | UploadFile payload composite_metadata => (upload_file payload composite_metadata w).2
  | DownloadFile _ => w
  | OnClose self => (remove self w).2
  end.

(** The requests that write the file of a given name, and those by which a
    given session id leaves a given channel. *)
Definition uploads (file_name : string) (rq : request) : Prop :=
  match rq with
  | UploadFile _ composite_metadata => get_file_name composite_metadata = Ok file_name
  | _ => False
  end.

Definition leaves (channel_name sid : string) (rq : request) : Prop :=
  match rq with
  | LeaveChannel (Some session) payload =>
      data_decode payload = Ok channel_name /\ session_id session = sid
  | _ => False
  end.

End Collaborators.

End ChatServer.

(** Concrete collaborators for the examples of the chat server: utf8_decode
    on ASCII bytes, find_by_mimetype as the contents of the items of the
    given mime type, and the sessions of two users. *)
Definition ascii_utf8_decode (data : option bytes) : result string :=
  match data with
  | Some bs => decode_ascii bs
  | None => Raise ChatServer.attribute_error_decode
  end.

Definition items_by_mimetype (composite_metadata : CompositeMetadata) (mime : bytes)
  : list bytes :=
  omap (fun item => match item with
                    | OtherItem mime' content =>
                        if bool_decide (mime' = mime) then Some content else None
                    | _ => None
                    end) (items composite_metadata).

Definition file_name_item (file_name : string) : CompositeMetadata :=
  mkCompositeMetadata [OtherItem (b "chat/file-name") (b file_name)].

Definition alice : ChatServer.UserSessionData := ChatServer.mkSession "alice" "session-1".
Definition bob : ChatServer.UserSessionData := ChatServer.mkSession "bob" "session-2".

(** ** The route registry *)

Section Registry.

Implicit Types (self : RequestRouter.t) (f g : decorated_method) (r : string).

Lemma safe_len_0 (route : option string) :
  safe_len route = 0 <-> route = None \/ route = Some "".
Proof.
  destruct route as [[|c s]|]; simpl; split; intros H; try done; auto.
  - destruct H as [H|H]; discriminate H.
Qed.

(** The three outcomes of the decorator on a dictionary. *)
Lemma decorator_empty (container : gmap string decorated_method) route f :
  safe_len route = 0 ->
  decorator_factory container route f = (Raise (RSocketEmptyRoute (__name__ f)), container).
Proof. intros H. unfold decorator_factory. by rewrite H. Qed.

Lemma decorator_duplicate (container : gmap string decorated_method) r f g :
  r <> "" -> container !! r = Some g ->
  decorator_factory container (Some r) f
  = (Raise (KeyError [VStr duplicate_route_message; VStr r]), container).
Proof.
  intros Hr Hg. unfold decorator_factory.
  destruct r as [|c s]; [done|]. simpl. by rewrite Hg.
Qed.

Lemma decorator_fresh (container : gmap string decorated_method) r f :
  r <> "" -> container !! r = None ->
  decorator_factory container (Some r) f = (Ok f, <[r := f]> container).
Proof.
  intros Hr Hg. unfold decorator_factory.
  destruct r as [|c s]; [done|]. simpl. by rewrite Hg.
Qed.

Lemma decorator_raise_unchanged (container : gmap string decorated_method) route f e :
  (decorator_factory container route f).1 = Raise e ->
  (decorator_factory container route f).2 = container.
Proof.
  unfold decorator_factory.
  destruct (Nat.eqb (safe_len route) 0); [done|].
  destruct route as [r|]; [|done].
  destruct (container !! r); [done|]. discriminate.
Qed.

(** A registered route is never overwritten by the decorator. *)
Lemma decorator_keeps (container : gmap string decorated_method) route f r g :
  container !! r = Some g ->
  (decorator_factory container route f).2 !! r = Some g.
Proof.
  intros Hg. unfold decorator_factory.
  destruct (Nat.eqb (safe_len route) 0); [done|].
  destruct route as [r'|]; [|done].
  destruct (container !! r') eqn:Hr'; [done|]. simpl.
  rewrite lookup_insert_ne; [done|]. intros ->. congruence.
Qed.

(** What a registration method does, in terms of the dictionary it is bound
    to: the dictionary of its frame type is the one the decorator leaves, the
    other four, the fallbacks and the payload mapper are untouched. *)
Lemma registration_spec ft reg self route f :
  registration ft = Some reg ->
  exists ref,
    RequestRouter._route_map_by_frame_type ft = Some ref /\
    (reg self route f).1 = (decorator_factory (RequestRouter.deref self ref) route f).1 /\
    RequestRouter.deref (reg self route f).2 ref
      = (decorator_factory (RequestRouter.deref self ref) route f).2 /\
    (forall ref', ref' <> ref ->
       RequestRouter.deref (reg self route f).2 ref' = RequestRouter.deref self ref') /\
    RequestRouter._unknown (reg self route f).2 = RequestRouter._unknown self /\
    RequestRouter._payload_mapper (reg self route f).2 = RequestRouter._payload_mapper self /\
    ((decorator_factory (RequestRouter.deref self ref) route f).2 = RequestRouter.deref self ref ->
     (reg self route f).2 = self).
Proof.
  intros Hreg.
  destruct ft; simplify_eq/=; eexists; (split; [reflexivity|]);
    unfold RequestRouter.response, RequestRouter.stream, RequestRouter.channel,
           RequestRouter.fire_and_forget, RequestRouter.metadata_push; simpl;
    destruct (decorator_factory _ route f) as [res c] eqn:Hd; simpl;
    (repeat split; [by intros [] ?|by destruct self; simpl; intros ->]).
Qed.

End Registry.

(** C2. For each of the five frame types that have a registration method
    (response, stream, channel, fire_and_forget, metadata_push): registering
    under the null or the empty route raises RSocketEmptyRoute; registering
    under a non-empty route that the table of that frame type already holds
    raises the duplicate-route KeyError; registering under a non-empty route
    that the table does not hold returns the function and the table that
    route consults for that frame type now maps the route to it. *)
Theorem registration_outcomes ft reg self route f :
  registration ft = Some reg ->
  exists table,
    routes_for self ft = Some table /\
    (route = None \/ route = Some "" ->
       (reg self route f).1 = Raise (RSocketEmptyRoute (__name__ f))) /\
    (forall r g, route = Some r -> r <> "" -> table !! r = Some g ->
       (reg self route f).1 = Raise (KeyError [VStr duplicate_route_message; VStr r])) /\
    (forall r, route = Some r -> r <> "" -> table !! r = None ->
       (reg self route f).1 = Ok f /\
       exists table', routes_for (reg self route f).2 ft = Some table' /\
                      table' !! r = Some f).
Proof.
  intros Hreg.
  destruct (registration_spec ft reg self route f Hreg)
    as (ref & Hmap & Hres & Htab & _).
  exists (RequestRouter.deref self ref). unfold routes_for. rewrite Hmap. simpl.
  split; [done|]. rewrite Hres, Htab. split; [|split].
  - intros Hempty. apply safe_len_0 in Hempty. by rewrite decorator_empty.
  - intros r g -> Hr Hg. by rewrite (decorator_duplicate _ r f g).
  - intros r -> Hr Hnone. rewrite (decorator_fresh _ r f) by done. simpl.
    split; [done|]. eexists. split; [reflexivity|]. by rewrite lookup_insert_eq.
Qed.

Lemma registration_outcomes_witness :
  (RequestRouter.response test_router None (echo_method "request_response2")).1
    = Raise (RSocketEmptyRoute "request_response2") /\
  (RequestRouter.response test_router (Some "") (echo_method "request_response")).1
    = Raise (RSocketEmptyRoute "request_response") /\
  (RequestRouter.response test_router (Some "test.path") (echo_method "request_response2")).1
    = Raise (KeyError [VStr duplicate_route_message; VStr "test.path"]) /\
  (RequestRouter.response test_router (Some "path1") (echo_method "request_response")).1
    = Ok (echo_method "request_response").
Proof.
  destruct (registration_outcomes REQUEST_RESPONSE RequestRouter.response test_router
              None (echo_method "request_response2") eq_refl) as (t1 & _ & H1 & _).
  destruct (registration_outcomes REQUEST_RESPONSE RequestRouter.response test_router
              (Some "") (echo_method "request_response") eq_refl) as (t2 & _ & H2 & _).
  destruct (registration_outcomes REQUEST_RESPONSE RequestRouter.response test_router
              (Some "test.path") (echo_method "request_response2") eq_refl)
    as (t3 & Ht3 & _ & H3 & _).
  destruct (registration_outcomes REQUEST_RESPONSE RequestRouter.response test_router
              (Some "path1") (echo_method "request_response") eq_refl)
    as (t4 & Ht4 & _ & _ & H4).
  injection Ht3 as <-. injection Ht4 as <-.
  split; [apply H1; by left|]. split; [apply H2; by right|].
  split; [apply (H3 "test.path" (echo_method "response")); [reflexivity|discriminate|reflexivity]|].
  apply (H4 "path1"); [reflexivity|discriminate|reflexivity].
Defined.

(** C10. A registration that raises leaves the router as it was: the whole
    router, hence every route table, is unchanged; a handler registered
    before a failed attempt is still the one its route maps to. *)
Theorem registration_failure_atomic ft reg self route f e :
  registration ft = Some reg ->
  (reg self route f).1 = Raise e ->
  (reg self route f).2 = self /\
  (forall ft', routes_for (reg self route f).2 ft' = routes_for self ft').
Proof.
  intros Hreg Hraise.
  destruct (registration_spec ft reg self route f Hreg)
    as (ref & Hmap & Hres & Htab & _ & _ & _ & Hsame).
  assert ((reg self route f).2 = self) as ->; [|done].
  apply Hsame. rewrite Hres in Hraise. by eapply decorator_raise_unchanged.
Qed.

Lemma registration_failure_atomic_witness :
  (RequestRouter.response test_router (Some "test.path") (echo_method "request_response2")).2
    = test_router /\
  (RequestRouter.response test_router (Some "") (echo_method "request_response")).2
    = test_router.
Proof.
  split.
  - apply (registration_failure_atomic REQUEST_RESPONSE RequestRouter.response test_router
             (Some "test.path") (echo_method "request_response2")
             (KeyError [VStr duplicate_route_message; VStr "test.path"]) eq_refl).
    reflexivity.
  - apply (registration_failure_atomic REQUEST_RESPONSE RequestRouter.response test_router
             (Some "") (echo_method "request_response")
             (RSocketEmptyRoute "request_response") eq_refl).
    reflexivity.
Defined.

(** ** Dispatch by the router *)

Section Dispatch.

Implicit Types (self : RequestRouter.t) (f g : decorated_method) (r : string).

(** The body of route on a frame type that has a table. *)
Lemma route_unfold self ft table r payload cm tr :
  routes_for self ft = Some table ->
  RequestRouter.route self (VFrameType ft) (VStr r) payload cm tr
  = match table !! r with
    | Some f => reaches self f payload cm tr
    | None =>
        match RequestRouter._get_unknown_route self ft with
        | Some f => reaches self f payload cm tr
        | None => (Raise (RSocketUnknownRoute (VStr r)), tr)
        end
    end.
Proof.
  unfold routes_for, RequestRouter.route. intros Ht.
  destruct (RequestRouter._route_map_by_frame_type ft) as [ref|]; [|done].
  simpl in Ht. injection Ht as <-.
  assert (forall f, (let! route_kwargs :=
              lift (RequestRouter._collect_route_arguments self f payload cm) in
            emit (EvInvoke (__name__ f) route_kwargs);; lift (call f route_kwargs)) tr
          = reaches self f payload cm tr) as Hreach.
  { intros f. unfold reaches, bind, lift, emit.
    by destruct (RequestRouter._collect_route_arguments self f payload cm). }
  destruct (RequestRouter.deref self ref !! r) as [f|]; [apply Hreach|].
  destruct (RequestRouter._get_unknown_route self ft) as [f|]; [apply Hreach|done].
Qed.

Lemma unknown_registration_sets ft ureg self f :
  unknown_registration ft = Some ureg ->
  RequestRouter._get_unknown_route (ureg self f).2 ft = Some f.
Proof. intros H. by destruct ft; simplify_eq/=. Qed.

End Dispatch.

(** ** The routing request handler *)

(** The call of _parse_and_route into the router passes three positional
    arguments, route, payload and composite_metadata, where route has four
    parameters after self: binding fails with TypeError before the body of
    route runs, for every router. *)
Lemma route_call_three_arguments (self : RequestRouter.t) (a0 a1 a2 : pyval) (tr : trace) :
  exists msg,
    RequestRouter.route_call self [a0; a1; a2] tr
    = (Raise (TypeError msg), tr ++ [EvRouterRoute [a0; a1; a2]]).
Proof. eexists. reflexivity. Qed.

(** C1. A request whose route is registered for its frame type should reach
    the registered route processor.  It does not.  On the router of the
    tests, where test.path is registered with response, the request of
    test_routed_request_response_properly_finished (the route test.path, no
    authentication entry; the metadata is composite(route('test.path')): the
    well-known id of the routing mime type with the high bit set, the length
    on three bytes, and the tag with its length), handled by
    RoutingRequestHandler(socket, router) with its default verifier, ends in
    a future that holds 'Authentication required but not provided'; nothing
    has been called.  The same request with an authentication entry passes
    the verifier and ends in a future that holds the TypeError of the call
    self.router.route(route, payload, composite_metadata), three arguments
    for the four parameters of route; the route processor has not been
    called. *)
Lemma registered_route_not_reached :
  let handler := RoutingRequestHandler.init test_router (Some always_allow_authenticator)
                   None None in
  let payload := mkPayload (Some []) (Some ([xff; x00; x00; x0a; x09] ++ b "test.path")) in
  let simple := AuthenticationSimple (b "user") (b "12345") in
  let authenticated := [RoutingMetadata [b "test.path"]; AuthenticationContent simple] in
  RequestRouter._response_routes test_router !! "test.path" = Some (echo_method "response") /\
  RoutingRequestHandler.request_response
    (parse_as [RoutingMetadata [b "test.path"]]) decode_ascii handler payload []
  = (Ok (ErrorFuture (Exception "Authentication required but not provided")), []) /\
  exists msg,
    RoutingRequestHandler.request_response (parse_as authenticated) decode_ascii handler
      payload []
    = (Ok (ErrorFuture (TypeError msg)),
       [EvVerify "test.path" simple;
        EvRouterRoute [VStr "test.path"; VPayload payload;
                       VCompositeMetadata (mkCompositeMetadata authenticated)]]).
Proof. split; [reflexivity|]. split; [reflexivity|]. eexists. reflexivity. Qed.

Section Handler.

Variable parse : option bytes -> result (list CompositeMetadataItem).
Variable decode : bytes -> result string.
Variable super_on_setup :
  RoutingRequestHandler.t -> bytes -> bytes -> trace ->
  result unit * RoutingRequestHandler.t * trace.

Implicit Types (self : RoutingRequestHandler.t) (payload : Payload) (tr : trace).

Lemma verify_loop_spec (v : verifier) (route : string) its tr :
  RoutingRequestHandler.verify_loop v route its tr
  = match first_authentication its with
    | Some authentication => (v route authentication, tr ++ [EvVerify route authentication])
    | None => (Raise (Exception "Authentication required but not provided"), tr)
    end.
Proof.
  induction its as [|[tags|authentication|mime content] rest IH]; simpl; try done.
Qed.



(** C9. request_fire_and_forget never raises and its value is always None:
    when _parse_and_route returns, nothing is added to what it did; when it
    raises, at any of its steps, the only thing added is one logged error. *)
Theorem fire_and_forget_logs_only self payload tr :
  RoutingRequestHandler.request_fire_and_forget parse decode self payload tr
  = match RoutingRequestHandler._parse_and_route parse decode self payload tr with
    | (Ok _, tr') => (Ok tt, tr')
    | (Raise e, tr') => (Ok tt, tr' ++ [EvLogError "Error" e])
    end
  /\ (RoutingRequestHandler.request_fire_and_forget parse decode self payload tr).1 = Ok tt.
Proof.
  unfold RoutingRequestHandler.request_fire_and_forget, try_except, bind, ret, emit.
  by destruct (RoutingRequestHandler._parse_and_route parse decode self payload tr) as [[v|e] tr'].
Qed.

(** C6. on_setup with a metadata encoding other than
    message/x.rsocket.composite-metadata.v0 raises and changes nothing; with
    that encoding it stores both encodings and hands over to the on_setup of
    the base handler, whose outcome is the outcome of the setup.  Hence a
    setup that is accepted had the composite metadata encoding. *)
Theorem on_setup_requires_composite_metadata self (data_encoding metadata_encoding : bytes) tr :
  (metadata_encoding <> b "message/x.rsocket.composite-metadata.v0" ->
     RoutingRequestHandler.on_setup super_on_setup self data_encoding metadata_encoding tr
     = (Raise (Exception
          "Setup frame did not specify composite metadata. required for routing handler"),
        self, tr)) /\
  (metadata_encoding = b "message/x.rsocket.composite-metadata.v0" ->
     exists self',
       RoutingRequestHandler.data_encoding self' = Some data_encoding /\
       RoutingRequestHandler.metadata_encoding self' = Some metadata_encoding /\
       RoutingRequestHandler.router self' = RoutingRequestHandler.router self /\
       RoutingRequestHandler.authentication_verifier self'
         = RoutingRequestHandler.authentication_verifier self /\
       RoutingRequestHandler.on_setup super_on_setup self data_encoding metadata_encoding tr
       = super_on_setup self' data_encoding metadata_encoding tr) /\
  ((RoutingRequestHandler.on_setup super_on_setup self data_encoding metadata_encoding tr).1.1
     = Ok tt ->
   metadata_encoding = b "message/x.rsocket.composite-metadata.v0").
Proof.
  unfold RoutingRequestHandler.on_setup, MESSAGE_RSOCKET_COMPOSITE_METADATA_name.
  case_bool_decide as Hm; cbn [negb].
  - split; [done|]. split; [|done]. intros _. eexists.
    split; [|split; [|split; [|split; [|reflexivity]]]]; reflexivity.
  - split; [done|]. split; [done|]. discriminate.
Qed.

End Handler.



(** Fire-and-forget requests that fail at other steps: the metadata does
    not parse; the call into the router fails to bind its arguments.  Each
    returns None and logs the error. *)
Example fire_and_forget_parse_failure :
  RoutingRequestHandler.request_fire_and_forget
    (fun _ => Raise (Exception "malformed composite metadata")) decode_ascii
    (RoutingRequestHandler.init test_router (Some always_allow_authenticator) None None)
    (mkPayload (Some (b "request data")) (Some [x00])) []
  = (Ok tt, [EvLogError "Error" (Exception "malformed composite metadata")]).
Proof. reflexivity. Qed.

Example fire_and_forget_router_call_failure :
  let simple := AuthenticationSimple (b "user") (b "12345") in
  let payload := mkPayload (Some (b "request data")) (Some (b "metadata")) in
  let its := [RoutingMetadata [b "test.path"]; AuthenticationContent simple] in
  exists msg,
    RoutingRequestHandler.request_fire_and_forget (parse_as its) decode_ascii
      (RoutingRequestHandler.init test_router (Some always_allow_authenticator) None None)
      payload []
    = (Ok tt, [EvVerify "test.path" simple;
               EvRouterRoute [VStr "test.path"; VPayload payload;
                              VCompositeMetadata (mkCompositeMetadata its)];
               EvLogError "Error" (TypeError msg)]).
Proof. eexists. reflexivity. Qed.

Lemma on_setup_requires_composite_metadata_witness :
  let handler := RoutingRequestHandler.init test_router (Some always_allow_authenticator)
                   None None in
  RoutingRequestHandler.on_setup nothing_on_setup handler
    (b "application/json") (b "application/json") []
  = (Raise (Exception
       "Setup frame did not specify composite metadata. required for routing handler"),
     handler, []) /\
  (RoutingRequestHandler.on_setup nothing_on_setup handler
     (b "application/json") (b "message/x.rsocket.composite-metadata.v0") []).1.1 = Ok tt.
Proof.
  intros handler. split.
  - destruct (on_setup_requires_composite_metadata nothing_on_setup handler
                (b "application/json") (b "application/json") []) as [H _].
    apply H. discriminate.
  - destruct (on_setup_requires_composite_metadata nothing_on_setup handler
                (b "application/json") (b "message/x.rsocket.composite-metadata.v0") [])
      as (_ & H & _).
    destruct (H eq_refl) as (self' & _ & _ & _ & _ & ->). reflexivity.
Defined.

(** ** The channel responder *)

(** C8. On a REQUEST_CHANNEL frame the responder, when the subscription of
    its subscriber is None, sends COMPLETE on its stream and then marks
    itself completed and finished (sent=True), and otherwise requests
    initial_request_n from the subscription; after either, and only when the
    frame has flags_complete, it completes the remote subscriber; nothing
    else is done. *)
Theorem channel_responder_initial_frame (self : RequestChannelResponder.t)
    (frame : Frame.t) (done : list RequestChannelResponder.action) :
  Frame.frame_type frame = REQUEST_CHANNEL ->
  RequestChannelResponder.frame_received self frame done
  = done
    ++ match RequestChannelResponder.subscriber_subscription self with
       | None => [RequestChannelResponder.send_complete (RequestChannelResponder.stream self);
                  RequestChannelResponder.mark_completed_and_finish true]
       | Some subscription =>
           [RequestChannelResponder.subscription_request subscription
              (Frame.initial_request_n frame)]
       end
    ++ (if Frame.flags_complete frame
        then [RequestChannelResponder._complete_remote_subscriber] else []).
Proof.
  intros Hft. unfold RequestChannelResponder.frame_received.
  rewrite bool_decide_eq_true_2 by done.
  destruct (RequestChannelResponder.subscriber_subscription self),
    (Frame.flags_complete frame); simpl;
    rewrite <- ?app_assoc; simpl; by rewrite ?app_nil_r.
Qed.

Lemma channel_responder_initial_frame_witness :
  let frame := Frame.mk REQUEST_CHANNEL 1 (Some []) None false true false 5 None None in
  RequestChannelResponder.frame_received (RequestChannelResponder.mk 1 None) frame []
  = [RequestChannelResponder.send_complete 1;
     RequestChannelResponder.mark_completed_and_finish true;
     RequestChannelResponder._complete_remote_subscriber] /\
  RequestChannelResponder.frame_received (RequestChannelResponder.mk 1 (Some 7%nat)) frame []
  = [RequestChannelResponder.subscription_request 7 5;
     RequestChannelResponder._complete_remote_subscriber].
Proof.
  intros frame. split.
  - apply (channel_responder_initial_frame (RequestChannelResponder.mk 1 None) frame []).
    reflexivity.
  - apply (channel_responder_initial_frame (RequestChannelResponder.mk 1 (Some 7%nat)) frame []).
    reflexivity.
Defined.

(** ** Fragmentation and reassembly *)

Section Fragments.

Implicit Types (m d : bytes) (fr : Frame.t) (size : nat).

Lemma is_empty_true (bs : bytes) : is_empty bs = true <-> bs = [].
Proof. by destruct bs. Qed.

Lemma is_empty_false (bs : bytes) : is_empty bs = false <-> bs <> [].
Proof. by destruct bs. Qed.

Lemma drop_nil_take (bs : bytes) n : drop n bs = [] -> take n bs = bs.
Proof.
  intros H. apply take_ge. apply (f_equal length) in H.
  rewrite length_drop in H. simpl in H. lia.
Qed.

(** More fuel does not change what the loop collects. *)
Lemma fragment_generator_mono fuel fr fragments :
  fragment_generator fuel fr = Some fragments ->
  forall fuel', fuel <= fuel' -> fragment_generator fuel' fr = Some fragments.
Proof.
  revert fr fragments.
  induction fuel as [|fuel IH]; intros fr fragments Hgen fuel' Hle; [done|].
  destruct fuel' as [|fuel']; [lia|]. simpl in *.
  destruct (get_next_fragment fr) as [[next|] fr']; [|done].
  destruct (fragment_generator fuel fr') as [rest|] eqn:Hrest; [|done].
  by rewrite (IH fr' rest Hrest fuel') by lia.
Qed.

(** A slice of positive size makes progress on what is left, unless nothing
    is left. *)
Lemma next_slices_progress size m d :
  0 < size -> (m, d) <> ([], []) ->
  length (next_slices size (m, d)).2.1 + length (next_slices size (m, d)).2.2
  < length m + length d.
Proof.
  intros Hsize Hne. simpl. rewrite !length_drop, length_take.
  destruct m as [|x m]; destruct d as [|y d]; simpl in *; try done; lia.
Qed.

Lemma next_slices_concat size m d :
  (next_slices size (m, d)).1.1 ++ (next_slices size (m, d)).2.1 = m /\
  (next_slices size (m, d)).1.2 ++ (next_slices size (m, d)).2.2 = d.
Proof. simpl. by rewrite !take_drop. Qed.

(** The continuation fragments: what the generator yields once it has
    started, and what the cache makes of them when it already holds the
    accumulator of the stream. *)
Lemma continuation_fragments size (Hsize : 0 < size) n :
  forall fr m d,
    Frame.fragment_size_bytes fr = Some size ->
    Frame._fragments_left fr = Some (m, d) ->
    length m + length d <= n ->
    exists fragments,
      fragment_generator (S n) fr = Some fragments /\
      ((m, d) = ([], []) -> fragments = []) /\
      ((m, d) <> ([], []) ->
       forall (frames : gmap Z FragmentAccumulator) acc combined0,
         frames !! Frame.stream_id fr = Some acc ->
         exists combined,
           append_all (FrameFragmentCache.mk frames) combined0 fragments
           = (Ok (Some combined),
              FrameFragmentCache.mk (delete (Frame.stream_id fr) frames)) /\
           Frame.frame_type combined = first_frame_type acc /\
           Frame.data combined = Some (accumulated_data acc ++ d) /\
           Frame.metadata combined = Some (accumulated_metadata acc ++ m)).
Proof.
  induction n as [|n IH]; intros fr m d Hfs Hleft Hlen.
  - assert (m = [] /\ d = []) as [-> ->].
    { split; apply length_zero_iff_nil; lia. }
    exists []. simpl. unfold get_next_fragment. rewrite Hfs, Hleft. simpl.
    by repeat split.
  - destruct (decide ((m, d) = ([], []))) as [Heq|Hne].
    { injection Heq as -> ->. exists []. simpl. unfold get_next_fragment.
      rewrite Hfs, Hleft. simpl. by repeat split. }
    pose proof (next_slices_progress size m d Hsize Hne) as Hprog.
    destruct (next_slices_concat size m d) as [Hm Hd].
    destruct (next_slices size (m, d)) as [[m_slice d_slice] [m' d']] eqn:Hslices.
    simpl in Hprog, Hm, Hd.
    set (fr' := Frame.with_fragments_left (Some (m', d')) fr).
    destruct (IH fr' m' d') as (rest & Hrest & Hnil & Hcons); [done|done|lia|].
    assert (get_next_fragment fr
            = (Some (Frame.mk PAYLOAD (Frame.stream_id fr) (Some d_slice) (Some m_slice)
                       (negb (is_empty m' && is_empty d'))
                       (Frame.flags_complete fr) (Frame.flags_next fr)
                       (Frame.initial_request_n fr) None None), fr')) as Hnext.
    { unfold get_next_fragment. rewrite Hfs, Hleft.
      rewrite bool_decide_eq_false_2 by done.
      cbn [default from_option id negb andb fst snd].
      destruct (is_empty m && is_empty d) eqn:He.
      - apply andb_true_iff in He as [H1%is_empty_true H2%is_empty_true].
        destruct Hne. by rewrite H1, H2.
      - by rewrite Hslices. }
    exists (Frame.mk PAYLOAD (Frame.stream_id fr) (Some d_slice) (Some m_slice)
              (negb (is_empty m' && is_empty d'))
              (Frame.flags_complete fr) (Frame.flags_next fr)
              (Frame.initial_request_n fr) None None :: rest).
    split; [|split; [done|]].
    { change (fragment_generator (S (S n)) fr) with
        (match get_next_fragment fr with
         | (Some next_fragment, frame') =>
             match fragment_generator (S n) frame' with
             | Some rest => Some (next_fragment :: rest)
             | None => None
             end
         | (None, _) => Some []
         end).
      by rewrite Hnext, Hrest. }
    intros _ frames acc combined0 Hacc.
    cbn [append_all]. unfold FrameFragmentCache.append.
    cbn [Frame.stream_id Frame.frame_type Frame.flags_follows Frame.data Frame.metadata
         FrameFragmentCache._frames_by_stream_id Frame.flags_complete Frame.flags_next
         Frame.initial_request_n].
    rewrite Hacc. unfold contradicts. rewrite bool_decide_eq_true_2 by done.
    cbn [negb andb or_empty default from_option id first_frame_type accumulated_data
         accumulated_metadata].
    destruct (is_empty m' && is_empty d') eqn:He; cbn [negb].
    + apply andb_true_iff in He as [-> %is_empty_true -> %is_empty_true].
      rewrite (Hnil eq_refl). cbn [append_all]. rewrite !app_nil_r in Hm, Hd. subst.
      eexists. split; [reflexivity|]. by repeat split.
    + assert ((m', d') <> ([], [])) as Hne'.
      { intros [= -> ->]. done. }
      destruct (Hcons Hne'
                  (<[Frame.stream_id fr :=
                       mkAccumulator (first_frame_type acc)
                         (accumulated_data acc ++ d_slice)
                         (accumulated_metadata acc ++ m_slice)]> frames)
                  (mkAccumulator (first_frame_type acc)
                     (accumulated_data acc ++ d_slice)
                     (accumulated_metadata acc ++ m_slice))
                  None) as (combined & Happ & Hty & Hdat & Hmet).
      { apply lookup_insert_eq. }
      exists combined. change (Frame.stream_id fr') with (Frame.stream_id fr) in Happ.
      rewrite delete_insert_eq in Happ. rewrite Happ. split; [done|]. split; [done|].
      simpl in Hdat, Hmet. rewrite <- !app_assoc in Hdat, Hmet.
      by rewrite Hd in Hdat; rewrite Hm in Hmet.
Qed.

Lemma section_restored_some (original : option bytes) :
  section_restored original (Some (or_empty original)).
Proof.
  unfold section_restored. destruct original as [[|x bs]|]; simpl; auto.
Qed.

(** Fragmenting a logical frame with a positive fragment size and feeding
    the fragments to a fresh cache gives back both sections. *)
Lemma fragment_then_reassemble ft sid (data metadata : option bytes) size :
  0 < size ->
  exists fragments combined,
    (forall fuel, length (or_empty data) + length (or_empty metadata) + 2 <= fuel ->
       fragment_generator fuel (logical_frame ft sid data metadata (Some size))
       = Some fragments) /\
    append_all FrameFragmentCache.init None fragments
    = (Ok (Some combined), FrameFragmentCache.init) /\
    Frame.frame_type combined = ft /\
    Frame.data combined = Some (or_empty data) /\
    Frame.metadata combined = Some (or_empty metadata).
Proof.
  intros Hsize.
  set (fr := logical_frame ft sid data metadata (Some size)).
  set (m := or_empty metadata). set (d := or_empty data).
  destruct (next_slices_concat size m d) as [Hm Hd].
  assert (length (next_slices size (m, d)).2.1 + length (next_slices size (m, d)).2.2
          <= length m + length d) as Hlen.
  { simpl. rewrite !length_drop. lia. }
  destruct (next_slices size (m, d)) as [[m_slice d_slice] [m' d']] eqn:Hslices.
  simpl in Hm, Hd, Hlen.
  set (fr' := Frame.with_fragments_left (Some (m', d')) fr).
  set (head := Frame.mk ft sid (Some d_slice) (Some m_slice)
                 (negb (is_empty m' && is_empty d')) false false 0 None None).
  assert (get_next_fragment fr = (Some head, fr')) as Hnext.
  { unfold get_next_fragment, fr, logical_frame.
    cbn [Frame.fragment_size_bytes Frame._fragments_left Frame.metadata Frame.data
         Frame.frame_type Frame.stream_id Frame.flags_complete Frame.flags_next
         Frame.initial_request_n].
    rewrite bool_decide_eq_true_2 by done.
    cbn [default from_option id negb andb fst snd]. fold m d. by rewrite Hslices. }
  destruct (continuation_fragments size Hsize (length m + length d) fr' m' d')
    as (rest & Hrest & Hnil & Hcons); [done|done|lia|].
  assert (fragment_generator (S (S (length m + length d))) fr = Some (head :: rest)) as Hgen.
  { change (fragment_generator (S (S (length m + length d))) fr) with
      (match get_next_fragment fr with
       | (Some next_fragment, frame') =>
           match fragment_generator (S (length m + length d)) frame' with
           | Some rest => Some (next_fragment :: rest)
           | None => None
           end
       | (None, _) => Some []
       end).
    by rewrite Hnext, Hrest. }
  exists (head :: rest).
  assert (exists combined,
            append_all FrameFragmentCache.init None (head :: rest)
            = (Ok (Some combined), FrameFragmentCache.init) /\
            Frame.frame_type combined = ft /\
            Frame.data combined = Some d /\
            Frame.metadata combined = Some m) as (combined & Happ & Hrestored).
  { cbn [append_all]. unfold FrameFragmentCache.append, FrameFragmentCache.init.
    cbn [FrameFragmentCache._frames_by_stream_id]. rewrite lookup_empty.
    cbn [head Frame.flags_follows Frame.stream_id Frame.frame_type Frame.data
         Frame.metadata or_empty default from_option id].
    destruct (is_empty m' && is_empty d') eqn:He; cbn [negb].
    - apply andb_true_iff in He as [-> %is_empty_true -> %is_empty_true].
      rewrite (Hnil eq_refl). cbn [append_all]. rewrite !app_nil_r in Hm, Hd. subst m_slice d_slice.
      eexists. split; [reflexivity|]. by repeat split.
    - assert ((m', d') <> ([], [])) as Hne'.
      { intros [= -> ->]. done. }
      destruct (Hcons Hne' (<[sid := mkAccumulator ft d_slice m_slice]> ∅)
                  (mkAccumulator ft d_slice m_slice) None) as (combined & Happ & Hty & Hdat & Hmet).
      { apply lookup_insert_eq. }
      exists combined. change (Frame.stream_id fr') with sid in Happ.
      rewrite delete_insert_eq, delete_empty in Happ. rewrite Happ.
      simpl in Hdat, Hmet. rewrite Hd in Hdat. rewrite Hm in Hmet. done. }
  exists combined. split; [|done].
  intros fuel Hfuel. apply (fragment_generator_mono _ _ _ Hgen).
  fold d m in Hfuel. lia.
Qed.

End Fragments.

(** C3. For every frame type, stream, data and metadata (absent, empty or
    not) and every fragment size of at least 3: the loop over
    get_next_fragment ends and yields a list of fragments (the same for every
    sufficient bound on the iterations), and feeding these fragments in order
    into a fresh cache ends with a combined frame of the type of the logical
    frame whose data and metadata are those of the logical frame, an empty or
    absent section coming back empty or absent. *)
Theorem fragmentation_roundtrip (ft : FrameType) (sid : Z) (data metadata : option bytes)
    (fragment_size : nat) :
  3 <= fragment_size ->
  exists fragments combined,
    (forall fuel, length (or_empty data) + length (or_empty metadata) + 2 <= fuel ->
       fragment_generator fuel (logical_frame ft sid data metadata (Some fragment_size))
       = Some fragments) /\
    append_all FrameFragmentCache.init None fragments
    = (Ok (Some combined), FrameFragmentCache.init) /\
    Frame.frame_type combined = ft /\
    section_restored data (Frame.data combined) /\
    section_restored metadata (Frame.metadata combined).
Proof.
  intros Hsize.
  destruct (fragment_then_reassemble ft sid data metadata fragment_size)
    as (fragments & combined & Hgen & Happ & Hty & Hdat & Hmet); [lia|].
  exists fragments, combined. rewrite Hdat, Hmet.
  repeat split; try done; apply section_restored_some.
Qed.

Lemma fragmentation_roundtrip_witness :
  3 <= 3 /\
  exists fragments combined,
    (forall fuel, length (or_empty (Some (b "123abc456def"))) + length (or_empty None) + 2 <= fuel ->
       fragment_generator fuel
         (logical_frame REQUEST_STREAM 1 (Some (b "123abc456def")) None (Some 3))
       = Some fragments) /\
    append_all FrameFragmentCache.init None fragments
    = (Ok (Some combined), FrameFragmentCache.init) /\
    Frame.frame_type combined = REQUEST_STREAM /\
    section_restored (Some (b "123abc456def")) (Frame.data combined) /\
    section_restored None (Frame.metadata combined).
Proof.
  split; [lia|].
  apply (fragmentation_roundtrip REQUEST_STREAM 1 (Some (b "123abc456def")) None 3). lia.
Defined.

(** C4. The PAYLOAD frame with data 123abc89, metadata 456def and fragment
    size 3 yields exactly 5 fragments, all PAYLOAD frames; the first four
    have FOLLOWS set and the last has not; feeding them to a fresh cache gives
    a combined frame with the original data and metadata. *)
Theorem fragment_reassembly_boundary :
  exists fragments combined,
    (forall fuel,
       fragment_generator (6 + fuel)
         (logical_frame PAYLOAD 0 (Some (b "123abc89")) (Some (b "456def")) (Some 3))
       = Some fragments) /\
    length fragments = 5 /\
    Frame.flags_follows <$> fragments = [true; true; true; true; false] /\
    Frame.frame_type <$> fragments = [PAYLOAD; PAYLOAD; PAYLOAD; PAYLOAD; PAYLOAD] /\
    append_all FrameFragmentCache.init None fragments
    = (Ok (Some combined), FrameFragmentCache.init) /\
    Frame.data combined = Some (b "123abc89") /\
    Frame.metadata combined = Some (b "456def").
Proof.
  eexists. eexists. split.
  - intros fuel. apply (fragment_generator_mono 6); [vm_compute; reflexivity|lia].
  - repeat split; vm_compute; reflexivity.
Qed.

Section Mismatch.

Implicit Types (frames : gmap Z FragmentAccumulator) (frame : Frame.t).

(** Continuation fragments with FOLLOWS keep the accumulator of the stream
    and the type of its first frame. *)
Lemma continuations_keep_first_type (continuations : list Frame.t) :
  forall frames acc combined0 sid,
    frames !! sid = Some acc ->
    Forall (fun frame => Frame.stream_id frame = sid /\
                         Frame.flags_follows frame = true /\
                         contradicts (first_frame_type acc) (Frame.frame_type frame) = false)
           continuations ->
    exists frames' acc' combined',
      append_all (FrameFragmentCache.mk frames) combined0 continuations
      = (Ok combined', FrameFragmentCache.mk frames') /\
      frames' !! sid = Some acc' /\
      first_frame_type acc' = first_frame_type acc.
Proof.
  induction continuations as [|frame rest IH]; intros frames acc combined0 sid Hacc Hall.
  - exists frames, acc, combined0. by repeat split.
  - apply Forall_cons in Hall as [(Hsid & Hfollows & Hok) Hall].
    cbn [append_all]. unfold FrameFragmentCache.append.
    cbn [FrameFragmentCache._frames_by_stream_id]. rewrite Hsid, Hacc, Hok, Hfollows.
    destruct (IH (<[sid := mkAccumulator (first_frame_type acc)
                            (accumulated_data acc ++ or_empty (Frame.data frame))
                            (accumulated_metadata acc ++ or_empty (Frame.metadata frame))]>
                    frames)
                 (mkAccumulator (first_frame_type acc)
                            (accumulated_data acc ++ or_empty (Frame.data frame))
                            (accumulated_metadata acc ++ or_empty (Frame.metadata frame)))
                 None sid) as (frames' & acc' & combined' & Happ & Hacc' & Hty).
    { apply lookup_insert_eq. }
    { exact Hall. }
    exists frames', acc', combined'. by repeat split.
Qed.

(** C5, as stated, fails: after a REQUEST_RESPONSE frame with FOLLOWS, a
    PAYLOAD frame on the same stream is a fragment of a different frame type,
    and the cache does not raise: it returns the combined REQUEST_RESPONSE
    frame, as in test_fragmentation_request. *)
Lemma payload_continuation_is_combined :
  let first_frame := Frame.mk REQUEST_RESPONSE 0 (Some (b "123")) None true false true 0
                       None None in
  let second_frame := Frame.mk PAYLOAD 0 (Some (b "abc")) None false true false 0
                        None None in
  Frame.frame_type second_frame <> Frame.frame_type first_frame /\
  FrameFragmentCache.append FrameFragmentCache.init first_frame
  = (Ok None,
     FrameFragmentCache.mk {[ 0%Z := mkAccumulator REQUEST_RESPONSE (b "123") [] ]}) /\
  FrameFragmentCache.append
    (FrameFragmentCache.append FrameFragmentCache.init first_frame).2 second_frame
  = (Ok (Some (Frame.mk REQUEST_RESPONSE 0 (Some (b "123abc")) (Some []) false true false 0
                 None None)),
     FrameFragmentCache.init).
Proof. split; [discriminate|]. split; vm_compute; reflexivity. Qed.

(** C5, as amended.  Once the cache has accumulated a fragment sequence on a
    stream (a first frame with FOLLOWS on a stream without accumulator, then
    any number of continuation fragments with FOLLOWS), appending on the same
    stream a frame whose type is neither PAYLOAD nor the type of the first
    frame raises RSocketFrameFragmentDifferentType; no combined frame is
    returned and the cache is left as it was. *)
Theorem fragment_type_mismatch (cache : FrameFragmentCache.t) (first_frame : Frame.t)
    (continuations : list Frame.t) (next_frame : Frame.t) :
  FrameFragmentCache._frames_by_stream_id cache !! Frame.stream_id first_frame = None ->
  Frame.flags_follows first_frame = true ->
  Forall (fun frame => Frame.stream_id frame = Frame.stream_id first_frame /\
                       Frame.flags_follows frame = true /\
                       Frame.frame_type frame = PAYLOAD) continuations ->
  Frame.stream_id next_frame = Frame.stream_id first_frame ->
  Frame.frame_type next_frame <> Frame.frame_type first_frame ->
  Frame.frame_type next_frame <> PAYLOAD ->
  exists cache',
    append_all cache None (first_frame :: continuations) = (Ok None, cache') /\
    FrameFragmentCache.append cache' next_frame
    = (Raise RSocketFrameFragmentDifferentType, cache').
Proof.
  intros Hfresh Hfollows Hconts Hsid Hne Hnp.
  cbn [append_all]. unfold FrameFragmentCache.append at 1. rewrite Hfresh, Hfollows.
  set (acc := mkAccumulator (Frame.frame_type first_frame)
                (or_empty (Frame.data first_frame)) (or_empty (Frame.metadata first_frame))).
  destruct (continuations_keep_first_type continuations
              (<[Frame.stream_id first_frame := acc]>
                 (FrameFragmentCache._frames_by_stream_id cache))
              acc None (Frame.stream_id first_frame))
    as (frames' & acc' & combined' & Happ & Hacc' & Hty).
  { apply lookup_insert_eq. }
  { eapply Forall_impl; [exact Hconts|]. intros frame (? & ? & Hp). repeat split; try done.
    unfold contradicts. rewrite Hp. by rewrite bool_decide_eq_true_2. }
  assert (combined' = None) as ->.
  { revert Happ. clear -Hconts. generalize (<[Frame.stream_id first_frame := acc]>
                 (FrameFragmentCache._frames_by_stream_id cache)).
    induction Hconts as [|frame rest (Hs & Hf & Hp) Hrest IH]; intros frames Happ.
    - by injection Happ.
    - cbn [append_all] in Happ.
      destruct (FrameFragmentCache.append (FrameFragmentCache.mk frames) frame)
        as [[c|e] [frames1]] eqn:Ha; [|done].
      destruct rest as [|frame2 rest].
      + cbn [append_all] in Happ. injection Happ as <- _.
        revert Ha. unfold FrameFragmentCache.append.
        cbn [FrameFragmentCache._frames_by_stream_id]. rewrite Hf.
        destruct (frames !! Frame.stream_id frame); [|by intros [= <- _]].
        destruct (contradicts _ _); [done|by intros [= <- _]].
      + by apply (IH frames1). }
  exists (FrameFragmentCache.mk frames'). split; [exact Happ|].
  unfold FrameFragmentCache.append. cbn [FrameFragmentCache._frames_by_stream_id].
  rewrite Hsid, Hacc', Hty. unfold contradicts. cbn [acc first_frame_type].
  by rewrite !bool_decide_eq_false_2.
Qed.

Lemma fragment_type_mismatch_witness :
  let first_frame := Frame.mk REQUEST_RESPONSE 0 (Some (b "123")) None true false true 0
                       None None in
  let second_frame := Frame.mk REQUEST_CHANNEL 0 (Some (b "123")) None false true false 0
                        None None in
  exists cache',
    append_all FrameFragmentCache.init None [first_frame] = (Ok None, cache') /\
    FrameFragmentCache.append cache' second_frame
    = (Raise RSocketFrameFragmentDifferentType, cache').
Proof.
  intros first_frame second_frame.
  apply (fragment_type_mismatch FrameFragmentCache.init first_frame [] second_frame);
    [reflexivity|reflexivity|constructor|reflexivity|discriminate|discriminate].
Defined.

End Mismatch.

(** ** The registry as a function of its history *)

Section History.

Implicit Types (self : RequestRouter.t) (f g : decorated_method) (r : string)
  (calls : list registration_call).

Lemma route_map_injective ft ft' ref :
  RequestRouter._route_map_by_frame_type ft = Some ref ->
  RequestRouter._route_map_by_frame_type ft' = Some ref ->
  ft = ft'.
Proof. destruct ft, ft'; simpl; congruence. Qed.

Lemma registration_has_table ft :
  is_Some (registration ft) <-> is_Some (RequestRouter._route_map_by_frame_type ft).
Proof. destruct ft; simpl; split; intros [? ?]; by eauto. Qed.

(** What the decorator leaves under a route. *)
Lemma decorator_lookup (container : gmap string decorated_method) route f r :
  (decorator_factory container route f).2 !! r
  = match container !! r with
    | Some g => Some g
    | None => if bool_decide (route = Some r /\ r <> "") then Some f else None
    end.
Proof.
  destruct (container !! r) as [g|] eqn:Hr; [by apply decorator_keeps|].
  unfold decorator_factory.
  destruct (Nat.eqb (safe_len route) 0) eqn:Hlen.
  - apply Nat.eqb_eq, safe_len_0 in Hlen. simpl. rewrite Hr.
    rewrite bool_decide_eq_false_2; [done|]. intros [-> Hne].
    by destruct Hlen as [?|[= ->]].
  - destruct route as [r'|]; simpl in *.
    + destruct (container !! r') eqn:Hr'; simpl.
      * rewrite Hr. rewrite bool_decide_eq_false_2; [done|]. intros [[= ->] _]. congruence.
      * destruct (decide (r' = r)) as [->|Hne].
        -- rewrite lookup_insert_eq. rewrite bool_decide_eq_true_2; [done|].
           split; [done|]. intros ->. discriminate.
        -- rewrite lookup_insert_ne by done. rewrite Hr.
           rewrite bool_decide_eq_false_2; [done|]. intros [[= ->] _]. done.
    + discriminate Hlen.
Qed.

(** One use of a decorator, seen from the table of a frame type. *)
Lemma perform_lookup self c ft table r :
  routes_for self ft = Some table ->
  exists table',
    routes_for (perform self c) ft = Some table' /\
    table' !! r = match table !! r with
                  | Some g => Some g
                  | None => if bool_decide (r = "") then None
                            else first_registered [c] ft r
                  end.
Proof.
  intros Ht. destruct c as [ft' route f|ft' f]; simpl.
  - destruct (registration ft') as [reg|] eqn:Hreg.
    + destruct (registration_spec ft' reg self route f Hreg)
        as (ref' & Hmap' & _ & Htab & Hother & _).
      unfold routes_for in *.
      destruct (RequestRouter._route_map_by_frame_type ft) as [ref|] eqn:Hmap; [|done].
      simpl in *. injection Ht as <-. eexists. split; [reflexivity|].
      destruct (decide (ref = ref')) as [->|Hne].
      * assert (ft' = ft) as -> by (by eapply route_map_injective).
        rewrite Htab, decorator_lookup.
        destruct (RequestRouter.deref self ref' !! r); [done|].
        destruct route as [r'|]; simpl.
        -- repeat case_bool_decide; try done; try (by intuition congruence);
             exfalso; intuition (subst; eauto).
        -- repeat case_bool_decide; try done; try (by intuition congruence);
             exfalso; intuition (subst; eauto).
      * rewrite Hother by done.
        destruct (RequestRouter.deref self ref !! r); [done|].
        destruct route as [r'|]; simpl; [|by case_bool_decide].
        rewrite (bool_decide_eq_false_2 (ft' = ft /\ r' = r)); [by case_bool_decide|].
        intros [-> _]. congruence.
    + exists table. split; [done|].
      destruct (table !! r); [done|].
      destruct route as [r'|]; simpl; [|by case_bool_decide].
      rewrite (bool_decide_eq_false_2 (ft' = ft /\ r' = r)); [by case_bool_decide|].
      intros [-> _]. unfold routes_for in Ht.
      destruct (registration_has_table ft) as [_ H].
      destruct H as [? H]; [|congruence].
      by destruct (RequestRouter._route_map_by_frame_type ft).
  - exists table. split.
    + destruct (unknown_registration ft') as [reg|] eqn:Hreg; [|done].
      rewrite <- Ht. unfold routes_for.
      destruct ft'; simplify_eq/=;
        by destruct (RequestRouter._route_map_by_frame_type ft) as [[]|].
    + destruct (table !! r); [done|]. by case_bool_decide.
Qed.

Lemma history_lookup calls : forall self ft table r,
  routes_for self ft = Some table ->
  exists table',
    routes_for (foldl perform self calls) ft = Some table' /\
    table' !! r = match table !! r with
                  | Some g => Some g
                  | None => if bool_decide (r = "") then None
                            else first_registered calls ft r
                  end.
Proof.
  induction calls as [|c calls IH]; intros self ft table r Ht.
  - exists table. split; [done|]. destruct (table !! r); [done|]. by case_bool_decide.
  - destruct (perform_lookup self c ft table r Ht) as (table1 & Ht1 & Hl1).
    destruct (IH (perform self c) ft table1 r Ht1) as (table2 & Ht2 & Hl2).
    exists table2. split; [exact Ht2|]. rewrite Hl2, Hl1.
    destruct (table !! r); [done|]. case_bool_decide; [done|].
    destruct c as [ft' [r'|] f|ft' f]; simpl; try done.
    by case_bool_decide.
Qed.

(** X1. The route tables of a router are a function of the uses of its
    decorators since it was created: the table of a frame type maps a
    non-empty route to the first function registered under that route for
    that frame type, whatever was registered for other frame types, as
    fallback, or attempted later; it never holds the empty route. *)
Theorem tables_by_history mapper calls ft table r :
  routes_for (foldl perform (RequestRouter.init mapper) calls) ft = Some table ->
  table !! r = if bool_decide (r = "") then None else first_registered calls ft r.
Proof.
  intros Ht.
  assert (exists table0, routes_for (RequestRouter.init mapper) ft = Some table0
                         /\ table0 = ∅) as (table0 & Ht0 & ->).
  { unfold routes_for in *.
    destruct (RequestRouter._route_map_by_frame_type ft) as [ref|]; [|by destruct calls].
    eexists. split; [reflexivity|]. by destruct ref. }
  destruct (history_lookup calls _ ft ∅ r Ht0) as (table' & Ht' & Hl).
  rewrite Ht in Ht'. injection Ht' as <-. by rewrite Hl, lookup_empty.
Qed.

Lemma tables_by_history_witness :
  let calls := [Register REQUEST_RESPONSE (Some "") (echo_method "empty");
                Register REQUEST_STREAM (Some "statistics") (echo_method "stream");
                Register REQUEST_FNF (Some "statistics") (echo_method "receive_statistics");
                Register REQUEST_CHANNEL (Some "statistics") (echo_method "send_statistics");
                Register REQUEST_FNF (Some "statistics") (echo_method "again")] in
  let router := foldl perform (RequestRouter.init RequestRouter.default_payload_mapper) calls in
  RequestRouter._fnf_routes router !! "statistics" = Some (echo_method "receive_statistics") /\
  RequestRouter._channel_routes router !! "statistics" = Some (echo_method "send_statistics") /\
  RequestRouter._response_routes router !! "" = None.
Proof.
  intros calls router. split; [|split].
  - apply (tables_by_history RequestRouter.default_payload_mapper calls REQUEST_FNF
             (RequestRouter._fnf_routes router) "statistics" eq_refl).
  - apply (tables_by_history RequestRouter.default_payload_mapper calls REQUEST_CHANNEL
             (RequestRouter._channel_routes router) "statistics" eq_refl).
  - apply (tables_by_history RequestRouter.default_payload_mapper calls REQUEST_RESPONSE
             (RequestRouter._response_routes router) "" eq_refl).
Defined.

Lemma unknown_other ft ft' ureg self f :
  unknown_registration ft' = Some ureg -> ft' <> ft ->
  RequestRouter._get_unknown_route (ureg self f).2 ft
  = RequestRouter._get_unknown_route self ft.
Proof. intros H Hne. by destruct ft'; simplify_eq/=; destruct ft. Qed.

Lemma perform_unknown self c ft :
  is_Some (unknown_registration ft) ->
  RequestRouter._get_unknown_route (perform self c) ft
  = match last_unknown [c] ft with
    | Some f => Some f
    | None => RequestRouter._get_unknown_route self ft
    end.
Proof.
  intros [ureg Hureg]. destruct c as [ft' route f|ft' f]; simpl.
  - destruct (registration ft') as [reg|] eqn:Hreg; [|done].
    destruct (registration_spec ft' reg self route f Hreg) as (? & _ & _ & _ & _ & Hu & _).
    unfold RequestRouter._get_unknown_route. by rewrite Hu.
  - case_bool_decide as Heq.
    + subst ft'. rewrite Hureg. by apply unknown_registration_sets.
    + destruct (unknown_registration ft') as [reg|] eqn:Hreg; [|done].
      exact (unknown_other ft ft' reg self f Hreg Heq).
Qed.

(** X2. The fallback of a frame type is the last function registered with
    its *_unknown decorator: a later registration replaces an earlier one
    without error, and neither route registrations nor the fallbacks of
    other frame types change it. *)
Theorem fallbacks_by_history calls self ft :
  is_Some (unknown_registration ft) ->
  RequestRouter._get_unknown_route (foldl perform self calls) ft
  = match last_unknown calls ft with
    | Some f => Some f
    | None => RequestRouter._get_unknown_route self ft
    end.
Proof.
  intros Hft. revert self.
  induction calls as [|c calls IH]; intros self; [done|].
  cbn [foldl]. rewrite IH, (perform_unknown self c ft Hft).
  destruct c as [ft' route f|ft' f]; simpl; [done|].
  destruct (last_unknown calls ft); [done|]. by case_bool_decide.
Qed.

Lemma fallbacks_by_history_witness :
  let calls := [RegisterUnknown REQUEST_STREAM (echo_method "first");
                RegisterUnknown REQUEST_RESPONSE (echo_method "other");
                Register REQUEST_STREAM (Some "stream") (echo_method "stream");
                RegisterUnknown REQUEST_STREAM (echo_method "second")] in
  RequestRouter._get_unknown_route (foldl perform test_router calls) REQUEST_STREAM
  = Some (echo_method "second") /\
  RequestRouter._get_unknown_route (foldl perform test_router calls) REQUEST_CHANNEL = None.
Proof.
  intros calls. split.
  - apply (fallbacks_by_history calls test_router REQUEST_STREAM). by eexists.
  - apply (fallbacks_by_history calls test_router REQUEST_CHANNEL). by eexists.
Defined.

Lemma history_unknown calls : forall self ft,
  is_Some (unknown_registration ft) ->
  RequestRouter._get_unknown_route (foldl perform self calls) ft
  = match last_unknown calls ft with
    | Some f => Some f
    | None => RequestRouter._get_unknown_route self ft
    end.
Proof.
  induction calls as [|c calls IH]; intros self ft Hft; [done|].
  cbn [foldl]. rewrite (IH _ ft Hft), (perform_unknown self c ft Hft).
  destruct c as [ft' route f|ft' f]; cbn [last_unknown]; [done|].
  destruct (last_unknown calls ft); [done|]. by case_bool_decide.
Qed.

(** X15. Dispatch as a function of the history of a router: for a request
    frame type, route reaches the first function registered under the route
    for that frame type; for a route never registered for that frame type,
    the empty route included, it reaches the last fallback registered for
    that frame type; and when there is none it raises
    RSocketUnknownRoute(route).  Nothing registered for another frame type is
    ever reached. *)
Theorem route_by_history mapper calls ft r payload cm tr :
  is_Some (registration ft) ->
  RequestRouter.route (foldl perform (RequestRouter.init mapper) calls)
    (VFrameType ft) (VStr r) payload cm tr
  = match (if bool_decide (r = "") then None else first_registered calls ft r) with
    | Some f => reaches (foldl perform (RequestRouter.init mapper) calls) f payload cm tr
    | None =>
        match last_unknown calls ft with
        | Some f => reaches (foldl perform (RequestRouter.init mapper) calls) f payload cm tr
        | None => (Raise (RSocketUnknownRoute (VStr r)), tr)
        end
    end.
Proof.
  intros Hft.
  assert (routes_for (RequestRouter.init mapper) ft = Some ∅) as Ht0.
  { unfold routes_for. apply registration_has_table in Hft as [ref ->]. by destruct ref. }
  destruct (history_lookup calls _ ft ∅ r Ht0) as (table & Ht & Hl).
  rewrite lookup_empty in Hl.
  rewrite (route_unfold _ ft table r payload cm tr Ht), Hl.
  rewrite history_unknown.
  - destruct (if bool_decide (r = "") then None else first_registered calls ft r); [done|].
    destruct (last_unknown calls ft); [done|]. by destruct ft.
  - destruct Hft as [reg Hreg]. by destruct ft; simplify_eq/=.
Qed.

Lemma route_by_history_witness :
  let calls := [Register REQUEST_STREAM (Some "files") (echo_method "get_file_names");
                RegisterUnknown REQUEST_RESPONSE (echo_method "fallback");
                Register REQUEST_RESPONSE (Some "login") (echo_method "login");
                Register REQUEST_RESPONSE (Some "login") (echo_method "login2")] in
  let router := foldl perform (RequestRouter.init RequestRouter.default_payload_mapper) calls in
  (RequestRouter.route router (VFrameType REQUEST_RESPONSE) (VStr "login") VNone VNone []).2
  = [EvInvoke "login" [("payload", VNone); ("composite_metadata", VNone)]] /\
  (RequestRouter.route router (VFrameType REQUEST_RESPONSE) (VStr "files") VNone VNone []).2
  = [EvInvoke "fallback" [("payload", VNone); ("composite_metadata", VNone)]] /\
  RequestRouter.route router (VFrameType REQUEST_STREAM) (VStr "login") VNone VNone []
  = (Raise (RSocketUnknownRoute (VStr "login")), []).
Proof.
  intros calls router. unfold router.
  rewrite !(route_by_history RequestRouter.default_payload_mapper calls)
    by (by eexists).
  split; [reflexivity|]. split; reflexivity.
Defined.

End History.

(** ** The arguments of a route processor *)

Section Arguments.

Implicit Types (self : RequestRouter.t) (params : list (string * annotation))
  (payload cm : pyval) (acc : kwargs).

Lemma collect_loop_passes self params rest payload cm acc :
  Forall (passes self payload) params ->
  RequestRouter.collect_loop self (params ++ rest) payload cm acc
  = RequestRouter.collect_loop self rest payload cm (acc ++ (bound_to payload cm <$> params)).
Proof.
  intros Hall. revert acc.
  induction Hall as [|[parameter ann] params Hp Hparams IH]; intros acc;
    cbn [RequestRouter.collect_loop fmap list_fmap app].
  { by rewrite app_nil_r. }
  unfold bound_to at 1. cbn [fst snd].
  destruct (String.eqb "composite_metadata" parameter) eqn:Heq.
  - apply String.eqb_eq in Heq as <-. rewrite IH. by rewrite <- app_assoc.
  - destruct Hp as [Hp|[Hp|[Hp|Hp]]]; simpl in Hp.
    + subst parameter. by rewrite String.eqb_refl in Heq.
    + subst ann. rewrite bool_decide_eq_true_2 by (by left). cbn [negb].
      rewrite IH. by rewrite <- app_assoc.
    + subst ann. rewrite bool_decide_eq_true_2 by (by right). cbn [negb].
      rewrite IH. by rewrite <- app_assoc.
    + destruct (negb _); [rewrite Hp|]; rewrite IH; by rewrite <- app_assoc.
Qed.

Lemma collect_loop_keys self params : forall payload cm acc route_kwargs,
  RequestRouter.collect_loop self params payload cm acc = Ok route_kwargs ->
  route_kwargs.*1 = acc.*1 ++ params.*1.
Proof.
  induction params as [|[parameter ann] rest IH]; intros payload cm acc route_kwargs;
    cbn [RequestRouter.collect_loop].
  { intros [= <-]. by rewrite app_nil_r. }
  destruct (String.eqb "composite_metadata" parameter) eqn:Heq.
  - apply String.eqb_eq in Heq as <-. intros H%IH. rewrite H, fmap_app.
    by rewrite <- app_assoc.
  - destruct (negb _).
    + destruct (RequestRouter._payload_mapper self ann payload) as [payload'|e]; [|done].
      intros H%IH. rewrite H, fmap_app. by rewrite <- app_assoc.
    + intros H%IH. rewrite H, fmap_app. by rewrite <- app_assoc.
Qed.

(** X3. When no parameter needs a mapping (it is named composite_metadata,
    or it is annotated with Payload or not at all, or the payload mapper
    gives the payload back, as the default mapper does), the keyword
    arguments are, in the order of the signature, the composite metadata for
    a parameter named composite_metadata and the payload for every other
    parameter. *)
Theorem collect_route_arguments_unmapped self (f : decorated_method) payload cm :
  Forall (passes self payload) (parameters f) ->
  RequestRouter._collect_route_arguments self f payload cm
  = Ok (bound_to payload cm <$> parameters f).
Proof.
  intros Hall. unfold RequestRouter._collect_route_arguments.
  rewrite <- (app_nil_r (parameters f)) at 1.
  by rewrite (collect_loop_passes self (parameters f) [] payload cm []).
Qed.

Lemma collect_route_arguments_unmapped_witness :
  RequestRouter._collect_route_arguments test_router
    (mkMethod "upload_file"
       [("payload", AnnPayload); ("composite_metadata", AnnClass "CompositeMetadata");
        ("message", AnnClass "Message")]
       (fun _ => Ok VNone))
    (VPayload (mkPayload (Some (b "data")) None)) (VCompositeMetadata (mkCompositeMetadata []))
  = Ok [("payload", VPayload (mkPayload (Some (b "data")) None));
        ("composite_metadata", VCompositeMetadata (mkCompositeMetadata []));
        ("message", VPayload (mkPayload (Some (b "data")) None))].
Proof.
  apply (collect_route_arguments_unmapped test_router).
  constructor; [by right; left|].
  constructor; [by left|].
  constructor; [by right; right; right|].
  constructor.
Defined.

(** X4. Whatever the payload mapper does, when the arguments are collected
    their names are exactly the names of the parameters of the signature, in
    order: every parameter is bound, and nothing else is passed. *)
Theorem collect_route_arguments_names self (f : decorated_method) payload cm route_kwargs :
  RequestRouter._collect_route_arguments self f payload cm = Ok route_kwargs ->
  route_kwargs.*1 = (parameters f).*1.
Proof.
  intros H. by apply collect_loop_keys in H.
Qed.

Lemma collect_route_arguments_names_witness :
  [("payload", VPayload (mkPayload None None)); ("composite_metadata", VNone)].*1
  = (parameters (echo_method "response")).*1.
Proof.
  apply (collect_route_arguments_names test_router (echo_method "response")
           (VPayload (mkPayload None None)) VNone).
  reflexivity.
Defined.

(** X5. The payload is a variable of the loop: once a parameter with an
    annotation other than Payload has been mapped, the mapped object replaces
    the payload, and the parameters after it receive the mapped object, not
    the payload of the request. *)
Theorem mapped_payload_is_carried self (f : decorated_method) before parameter ann after
    payload payload' cm :
  parameters f = before ++ (parameter, ann) :: after ->
  Forall (passes self payload) before ->
  parameter <> "composite_metadata" -> ann <> AnnPayload -> ann <> AnnEmpty ->
  RequestRouter._payload_mapper self ann payload = Ok payload' ->
  Forall (passes self payload') after ->
  RequestRouter._collect_route_arguments self f payload cm
  = Ok ((bound_to payload cm <$> before) ++ (parameter, payload')
          :: (bound_to payload' cm <$> after)).
Proof.
  intros Hparams Hbefore Hname Hp He Hmap Hafter.
  unfold RequestRouter._collect_route_arguments. rewrite Hparams.
  rewrite (collect_loop_passes self before _ payload cm [] Hbefore).
  cbn [RequestRouter.collect_loop app].
  destruct (String.eqb "composite_metadata" parameter) eqn:Heq.
  { apply String.eqb_eq in Heq. congruence. }
  rewrite bool_decide_eq_false_2 by (intros [?|?]; done). cbn [negb]. rewrite Hmap.
  rewrite <- (app_nil_r after) at 1.
  rewrite (collect_loop_passes self after [] payload' cm _ Hafter).
  cbn [RequestRouter.collect_loop]. by rewrite <- app_assoc.
Qed.

Lemma mapped_payload_is_carried_witness :
  let self := RequestRouter.init
                (fun ann p => match ann with
                              | AnnClass "Message" => Ok (VObject "Message" 1)
                              | _ => Ok p
                              end) in
  RequestRouter._collect_route_arguments self
    (mkMethod "send_message"
       [("composite_metadata", AnnEmpty); ("message", AnnClass "Message"); ("raw", AnnEmpty)]
       (fun _ => Ok VNone))
    (VPayload (mkPayload (Some (b "{}")) None)) VNone
  = Ok [("composite_metadata", VNone); ("message", VObject "Message" 1);
        ("raw", VObject "Message" 1)].
Proof.
  intros self.
  apply (mapped_payload_is_carried self _ [("composite_metadata", AnnEmpty)] "message"
           (AnnClass "Message") [("raw", AnnEmpty)]
           (VPayload (mkPayload (Some (b "{}")) None)) (VObject "Message" 1) VNone).
  - reflexivity.
  - constructor; [by left|constructor].
  - discriminate.
  - discriminate.
  - discriminate.
  - reflexivity.
  - constructor; [by right; right; left|constructor].
Defined.

End Arguments.

(** ** More on the routing request handler *)

Section HandlerSteps.

Variable parse : option bytes -> result (list CompositeMetadataItem).
Variable decode : bytes -> result string.

Implicit Types (self : RoutingRequestHandler.t) (payload : Payload) (tr : trace)
  (its : list CompositeMetadataItem).

Lemma require_route_skips its rest :
  Forall (fun item => is_routing_item item = false) its ->
  RoutingRequestHandler.require_route_loop decode (its ++ rest)
  = RoutingRequestHandler.require_route_loop decode rest.
Proof.
  induction 1 as [|item its Hitem Hits IH]; [done|].
  by destruct item.
Qed.

(** X6. The route of a request is the first tag of the first routing item:
    items before it are skipped, the other tags and everything after it are
    ignored; when the first routing item has no tag the lookup of its first
    tag raises IndexError, even if a later routing item has one; without any
    routing item the request has no route. *)
Theorem require_route_first_routing_item before tags after :
  Forall (fun item => is_routing_item item = false) before ->
  RoutingRequestHandler._require_route decode
    (mkCompositeMetadata (before ++ RoutingMetadata tags :: after))
  = match tags with
    | tag0 :: _ => decode tag0
    | [] => Raise (IndexError "list index out of range")
    end
  /\ RoutingRequestHandler._require_route decode (mkCompositeMetadata before)
     = Raise (Exception "No route found in request").
Proof.
  intros Hbefore. unfold RoutingRequestHandler._require_route. cbn [items]. split.
  - by rewrite require_route_skips.
  - rewrite <- (app_nil_r before). by rewrite require_route_skips.
Qed.

(** X7. A handler created with authentication_verifier=None does not look at
    the authentication: whether or not the metadata holds an authentication
    item, nothing is verified and the request goes on to the router. *)
Theorem no_verifier_no_authentication self payload its route tr :
  RoutingRequestHandler.authentication_verifier self = None ->
  parse (metadata payload) = Ok its ->
  RoutingRequestHandler._require_route decode (mkCompositeMetadata its) = Ok route ->
  RoutingRequestHandler._verify_authentication self route (mkCompositeMetadata its) tr
  = (Ok tt, tr) /\
  RoutingRequestHandler._parse_and_route parse decode self payload tr
  = RequestRouter.route_call (RoutingRequestHandler.router self)
      [VStr route; VPayload payload; VCompositeMetadata (mkCompositeMetadata its)] tr.
Proof.
  intros Hv Hp Hr.
  unfold RoutingRequestHandler._parse_and_route,
    RoutingRequestHandler._verify_authentication, bind, lift, ret.
  by rewrite Hp, Hr, Hv.
Qed.

(** X9. The steps of _parse_and_route are taken in order and the first
    failure ends the request: metadata that does not parse raises the
    exception of the parser; metadata without a routing item raises 'No route
    found in request'; in both cases the verifier has not been called, even
    if the metadata holds an authentication item, and the router has not been
    called. *)
Theorem route_required_before_authentication self payload tr :
  (forall e, parse (metadata payload) = Raise e ->
     RoutingRequestHandler._parse_and_route parse decode self payload tr = (Raise e, tr)) /\
  (forall its, parse (metadata payload) = Ok its ->
     Forall (fun item => is_routing_item item = false) its ->
     RoutingRequestHandler._parse_and_route parse decode self payload tr
     = (Raise (Exception "No route found in request"), tr)).
Proof.
  unfold RoutingRequestHandler._parse_and_route, bind, lift. split.
  - by intros e ->.
  - intros its -> Hits.
    unfold RoutingRequestHandler._require_route. cbn [items].
    rewrite <- (app_nil_r its). by rewrite require_route_skips.
Qed.

Lemma route_call_never_invokes (router : RequestRouter.t) (a0 a1 a2 : pyval) tr :
  exists e added,
    RequestRouter.route_call router [a0; a1; a2] tr = (Raise e, tr ++ added) /\
    Forall (fun ev => is_invoke ev = false) added.
Proof.
  eexists _, [_]. split; [reflexivity|]. by constructor.
Qed.

(** X10. _parse_and_route passes three positional arguments, route, payload
    and composite_metadata, to RequestRouter.route, which takes four after
    self.  As a consequence no call of _parse_and_route returns normally and
    none invokes a route processor, whatever the metadata, the verifier and
    the routes registered: every request_response is answered with a failed
    future. *)
Theorem handler_never_reaches_a_route_processor self payload tr :
  exists e added,
    RoutingRequestHandler._parse_and_route parse decode self payload tr
    = (Raise e, tr ++ added) /\
    Forall (fun ev => is_invoke ev = false) added /\
    RoutingRequestHandler.request_response parse decode self payload tr
    = (Ok (ErrorFuture e), tr ++ added).
Proof.
  assert (exists e added,
            RoutingRequestHandler._parse_and_route parse decode self payload tr
            = (Raise e, tr ++ added) /\
            Forall (fun ev => is_invoke ev = false) added) as (e & added & Hpr & Hadded).
  { unfold RoutingRequestHandler._parse_and_route, bind, lift.
    destruct (parse (metadata payload)) as [its|e].
    2:{ exists e, []. rewrite app_nil_r. split; [reflexivity|constructor]. }
    destruct (RoutingRequestHandler._require_route decode (mkCompositeMetadata its))
      as [route|e].
    2:{ exists e, []. rewrite app_nil_r. split; [reflexivity|constructor]. }
    unfold RoutingRequestHandler._verify_authentication.
    destruct (RoutingRequestHandler.authentication_verifier self) as [v|].
    - rewrite verify_loop_spec. cbn [items].
      destruct (first_authentication its) as [authentication|].
      2:{ eexists _, []. rewrite app_nil_r. split; [reflexivity|constructor]. }
      destruct (v route authentication) as [[]|e].
      2:{ exists e, [EvVerify route authentication]. split; [reflexivity|]. by constructor. }
      destruct (route_call_never_invokes (RoutingRequestHandler.router self)
                  (VStr route) (VPayload payload)
                  (VCompositeMetadata (mkCompositeMetadata its))
                  (tr ++ [EvVerify route authentication])) as (e & added & -> & Hadded).
      exists e, (EvVerify route authentication :: added).
      split; [by rewrite <- app_assoc|]. by constructor.
    - unfold ret.
      destruct (route_call_never_invokes (RoutingRequestHandler.router self)
                  (VStr route) (VPayload payload)
                  (VCompositeMetadata (mkCompositeMetadata its)) tr)
        as (e & added & -> & Hadded).
      by exists e, added. }
  exists e, added. split; [done|]. split; [done|].
  unfold RoutingRequestHandler.request_response, try_except, bind, ret. by rewrite Hpr.
Qed.

End HandlerSteps.

Lemma require_route_first_routing_item_witness :
  let simple := AuthenticationContent (AuthenticationSimple (b "user") (b "12345")) in
  RoutingRequestHandler._require_route decode_ascii
    (mkCompositeMetadata ([simple; OtherItem (b "chat/file-name") (b "a.txt")]
                          ++ RoutingMetadata [b "file.upload"; b "ignored"]
                          :: [RoutingMetadata [b "login"]]))
  = Ok "file.upload" /\
  RoutingRequestHandler._require_route decode_ascii
    (mkCompositeMetadata ([simple] ++ RoutingMetadata [] :: [RoutingMetadata [b "login"]]))
  = Raise (IndexError "list index out of range").
Proof.
  intros simple. split.
  - apply (require_route_first_routing_item decode_ascii
             [simple; OtherItem (b "chat/file-name") (b "a.txt")]
             [b "file.upload"; b "ignored"] [RoutingMetadata [b "login"]]).
    constructor; [reflexivity|]. constructor; [reflexivity|constructor].
  - apply (require_route_first_routing_item decode_ascii [simple] []
             [RoutingMetadata [b "login"]]).
    constructor; [reflexivity|constructor].
Defined.

Lemma no_verifier_no_authentication_witness :
  let simple := AuthenticationSimple (b "user") (b "wrong") in
  let its := [RoutingMetadata [b "test.path"]; AuthenticationContent simple] in
  (RoutingRequestHandler._verify_authentication
     (RoutingRequestHandler.init test_router None None None) "test.path"
     (mkCompositeMetadata its) []).2 = [].
Proof.
  intros simple its.
  destruct (no_verifier_no_authentication (parse_as its) decode_ascii
              (RoutingRequestHandler.init test_router None None None)
              (mkPayload None None) its "test.path" [] eq_refl eq_refl eq_refl) as [-> _].
  reflexivity.
Defined.

Lemma route_required_before_authentication_witness :
  let simple := AuthenticationContent (AuthenticationSimple (b "user") (b "12345")) in
  RoutingRequestHandler._parse_and_route (parse_as [simple]) decode_ascii
    (RoutingRequestHandler.init test_router (Some deny_all) None None)
    (mkPayload None (Some (b "metadata"))) []
  = (Raise (Exception "No route found in request"), []).
Proof.
  intros simple.
  destruct (route_required_before_authentication (parse_as [simple]) decode_ascii
              (RoutingRequestHandler.init test_router (Some deny_all) None None)
              (mkPayload None (Some (b "metadata"))) []) as [_ H].
  apply (H [simple] eq_refl). constructor; [reflexivity|constructor].
Defined.

(** ** The chat server of the tutorial *)

Section Chat.

Variable decode : bytes -> result string.
Variable utf8_decode : option bytes -> result string.
Variable ensure_bytes : string -> bytes.
Variable find_by_mimetype : CompositeMetadata -> bytes -> list bytes.
Variable chat_filename_mimetype : bytes.

Local Abbreviation serve :=
  (ChatServer.serve decode utf8_decode ensure_bytes find_by_mimetype chat_filename_mimetype).
Local Abbreviation get_file_name :=
  (ChatServer.get_file_name utf8_decode find_by_mimetype chat_filename_mimetype).
Local Abbreviation uploads :=
  (ChatServer.uploads utf8_decode find_by_mimetype chat_filename_mimetype).
Local Abbreviation users_of w := (ChatServer.channel_users (ChatServer.chat_data w)).
Local Abbreviation files_of w := (ChatServer.files (ChatServer.chat_data w)).
Local Abbreviation tasks_of w := (ChatServer.delivery_tasks w).

Implicit Types (w : ChatServer.world) (rq : ChatServer.request) (c sid : string).

(** The shared state after the two accesses to channel_users. *)
Lemma ensure_channel_exists_spec c w :
  ((c ∈ dom (users_of w)) /\ ChatServer.ensure_channel_exists c w = w) \/
  ((c ∉ dom (users_of w)) /\
   users_of (ChatServer.ensure_channel_exists c w) = <[c := ∅]> (users_of w) /\
   files_of (ChatServer.ensure_channel_exists c w) = files_of w /\
   tasks_of (ChatServer.ensure_channel_exists c w) = tasks_of w ++ [c]).
Proof.
  unfold ChatServer.ensure_channel_exists. case_bool_decide as Hc.
  - right. by repeat split.
  - left. by split.
Qed.

Lemma channel_users_getitem_spec c w :
  tasks_of (ChatServer.channel_users_getitem c w).2 = tasks_of w /\
  files_of (ChatServer.channel_users_getitem c w).2 = files_of w /\
  users_of (ChatServer.channel_users_getitem c w).2
    = <[c := (ChatServer.channel_users_getitem c w).1]> (users_of w) /\
  (ChatServer.channel_users_getitem c w).1 = default ∅ (users_of w !! c).
Proof.
  unfold ChatServer.channel_users_getitem.
  destruct (users_of w !! c) as [users|] eqn:Hc; simpl; [|done].
  by rewrite insert_id.
Qed.

(** What join_channel and leave_channel leave in channel_users, in the files
    and in the delivery tasks. *)
Lemma join_channel_spec (self : ChatServer.ChatUserSession) payload w :
  match ChatServer.data_decode decode payload with
  | Raise _ => (ChatServer.join_channel decode self payload w).2 = w
  | Ok c =>
      let w1 := ChatServer.ensure_channel_exists c w in
      let w' := (ChatServer.join_channel decode self payload w).2 in
      tasks_of w' = tasks_of w1 /\ files_of w' = files_of w1 /\
      users_of w'
      = <[c := match self with
               | Some session =>
                   default ∅ (users_of w1 !! c) ∪ {[ChatServer.session_id session]}
               | None => default ∅ (users_of w1 !! c)
               end]> (users_of w1)
  end.
Proof.
  unfold ChatServer.join_channel.
  destruct (ChatServer.data_decode decode payload) as [c|e]; [|done]. cbn zeta.
  destruct (channel_users_getitem_spec c (ChatServer.ensure_channel_exists c w))
    as (Ht & Hf & Hu & H1).
  destruct (ChatServer.channel_users_getitem c (ChatServer.ensure_channel_exists c w))
    as [users w2]. simpl in *. subst users.
  destruct self as [session|]; simpl; [|done].
  rewrite Hu. by rewrite insert_insert_eq.
Qed.

Lemma leave_channel_spec (self : ChatServer.ChatUserSession) payload w :
  match ChatServer.data_decode decode payload with
  | Raise _ => (ChatServer.leave_channel decode self payload w).2 = w
  | Ok c =>
      let w' := (ChatServer.leave_channel decode self payload w).2 in
      tasks_of w' = tasks_of w /\ files_of w' = files_of w /\
      users_of w'
      = <[c := match self with
               | Some session =>
                   default ∅ (users_of w !! c) ∖ {[ChatServer.session_id session]}
               | None => default ∅ (users_of w !! c)
               end]> (users_of w)
  end.
Proof.
  unfold ChatServer.leave_channel.
  destruct (ChatServer.data_decode decode payload) as [c|e]; [|done]. cbn zeta.
  destruct (channel_users_getitem_spec c w) as (Ht & Hf & Hu & H1).
  destruct (ChatServer.channel_users_getitem c w) as [users w2]. simpl in *. subst users.
  destruct self as [session|]; simpl; [|done].
  rewrite Hu. by rewrite insert_insert_eq.
Qed.

(** Login, upload and close do not touch channel_users or the tasks. *)
Lemma login_spec (self : ChatServer.ChatUserSession) payload uuid4 w :
  users_of (ChatServer.login utf8_decode ensure_bytes self payload uuid4 w).2 = users_of w /\
  files_of (ChatServer.login utf8_decode ensure_bytes self payload uuid4 w).2 = files_of w /\
  tasks_of (ChatServer.login utf8_decode ensure_bytes self payload uuid4 w).2 = tasks_of w.
Proof. unfold ChatServer.login. by destruct (utf8_decode (data payload)). Qed.

Lemma remove_spec (self : ChatServer.ChatUserSession) w :
  users_of (ChatServer.remove self w).2 = users_of w /\
  files_of (ChatServer.remove self w).2 = files_of w /\
  tasks_of (ChatServer.remove self w).2 = tasks_of w.
Proof.
  unfold ChatServer.remove. destruct self as [session|]; [|done].
  by destruct (ChatServer.user_session_by_id (ChatServer.chat_data w) !! _).
Qed.

Lemma upload_file_spec payload cm w :
  users_of (ChatServer.upload_file utf8_decode find_by_mimetype chat_filename_mimetype
              payload cm w).2 = users_of w /\
  tasks_of (ChatServer.upload_file utf8_decode find_by_mimetype chat_filename_mimetype
              payload cm w).2 = tasks_of w /\
  files_of (ChatServer.upload_file utf8_decode find_by_mimetype chat_filename_mimetype
              payload cm w).2
  = match get_file_name cm with
    | Ok file_name => <[file_name := data payload]> (files_of w)
    | Raise _ => files_of w
    end.
Proof. unfold ChatServer.upload_file. by destruct (get_file_name cm). Qed.

(** One request, seen from the delivery tasks: a task is only added for a
    channel that was not in channel_users, and channels stay. *)
Lemma serve_tasks w rq :
  dom (users_of w) ⊆ dom (users_of (serve w rq)) /\
  (tasks_of (serve w rq) = tasks_of w \/
   exists c, (c ∉ dom (users_of w)) /\ (c ∈ dom (users_of (serve w rq))) /\
             tasks_of (serve w rq) = tasks_of w ++ [c]).
Proof.
  destruct rq as [self payload uuid4|self payload|self payload|payload cm|cm|self];
    cbn [ChatServer.serve].
  - destruct (login_spec self payload uuid4 w) as (-> & _ & ->). by split; [|left].
  - pose proof (join_channel_spec self payload w) as Hj.
    destruct (ChatServer.data_decode decode payload) as [c|e]; [|rewrite Hj; by split; [|left]].
    cbn zeta in Hj. destruct Hj as (Ht & _ & Hu). rewrite Hu, Ht, dom_insert_L.
    destruct (ensure_channel_exists_spec c w) as [[Hin ->]|(Hnin & Hu1 & _ & Ht1)].
    + split; [set_solver|by left].
    + rewrite Hu1, Ht1, dom_insert_L. split; [set_solver|].
      right. exists c. split; [done|]. split; [set_solver|done].
  - pose proof (leave_channel_spec self payload w) as Hl.
    destruct (ChatServer.data_decode decode payload) as [c|e]; [|rewrite Hl; by split; [|left]].
    cbn zeta in Hl. destruct Hl as (Ht & _ & Hu). rewrite Hu, Ht, dom_insert_L.
    split; [set_solver|by left].
  - destruct (upload_file_spec payload cm w) as (-> & -> & _). by split; [|left].
  - by split; [|left].
  - destruct (remove_spec self w) as (-> & _ & ->). by split; [|left].
Qed.

Lemma serve_files w rq file_name :
  ~ uploads file_name rq -> files_of (serve w rq) !! file_name = files_of w !! file_name.
Proof.
  intros Hno.
  destruct rq as [self payload uuid4|self payload|self payload|payload cm|cm|self];
    cbn [ChatServer.serve].
  - by destruct (login_spec self payload uuid4 w) as (_ & -> & _).
  - pose proof (join_channel_spec self payload w) as Hj.
    destruct (ChatServer.data_decode decode payload) as [c|e]; [|by rewrite Hj].
    cbn zeta in Hj. destruct Hj as (_ & -> & _).
    by destruct (ensure_channel_exists_spec c w) as [[_ ->]|(_ & _ & -> & _)].
  - pose proof (leave_channel_spec self payload w) as Hl.
    destruct (ChatServer.data_decode decode payload) as [c|e]; [|by rewrite Hl].
    cbn zeta in Hl. by destruct Hl as (_ & -> & _).
  - destruct (upload_file_spec payload cm w) as (_ & _ & ->).
    simpl in Hno. destruct (get_file_name cm) as [name|e]; [|done].
    rewrite lookup_insert_ne; [done|]. intros ->. by apply Hno.
  - done.
  - by destruct (remove_spec self w) as (_ & -> & _).
Qed.

Lemma serve_member w rq c sid users :
  users_of w !! c = Some users -> sid ∈ users ->
  ~ ChatServer.leaves decode c sid rq ->
  exists users', users_of (serve w rq) !! c = Some users' /\ sid ∈ users'.
Proof.
  intros Hc Hsid Hno.
  destruct rq as [self payload uuid4|self payload|self payload|payload cm|cm|self];
    cbn [ChatServer.serve].
  - destruct (login_spec self payload uuid4 w) as (-> & _ & _). eauto.
  - pose proof (join_channel_spec self payload w) as Hj.
    destruct (ChatServer.data_decode decode payload) as [c'|e]; [|rewrite Hj; eauto].
    cbn zeta in Hj. destruct Hj as (_ & _ & ->).
    assert (users_of (ChatServer.ensure_channel_exists c' w) !! c = Some users) as Hc1.
    { destruct (ensure_channel_exists_spec c' w) as [[_ ->]|(Hnin & -> & _)]; [done|].
      rewrite lookup_insert_ne; [done|]. intros ->.
      apply Hnin, elem_of_dom. by eexists. }
    destruct (decide (c' = c)) as [->|Hne].
    + rewrite lookup_insert_eq, Hc1. eexists. split; [reflexivity|].
      destruct self; set_solver.
    + rewrite lookup_insert_ne by done. eauto.
  - pose proof (leave_channel_spec self payload w) as Hl.
    simpl in Hno.
    destruct (ChatServer.data_decode decode payload) as [c'|e]; [|rewrite Hl; eauto].
    cbn zeta in Hl. destruct Hl as (_ & _ & ->).
    destruct (decide (c' = c)) as [->|Hne].
    + rewrite lookup_insert_eq, Hc. eexists. split; [reflexivity|].
      destruct self as [session|]; [|done]. simpl.
      apply elem_of_difference. split; [done|]. intros ->%elem_of_singleton.
      by apply Hno.
    + rewrite lookup_insert_ne by done. eauto.
  - destruct (upload_file_spec payload cm w) as (-> & _ & _). eauto.
  - eauto.
  - destruct (remove_spec self w) as (-> & _ & _). eauto.
Qed.

Lemma tasks_invariant_step w rq :
  (NoDup (tasks_of w) /\ forall c, c ∈ tasks_of w -> c ∈ dom (users_of w)) ->
  NoDup (tasks_of (serve w rq)) /\
  forall c, c ∈ tasks_of (serve w rq) -> c ∈ dom (users_of (serve w rq)).
Proof.
  intros [Hnd Hsub].
  destruct (serve_tasks w rq) as [Hdom [->|(c' & Hnin & Hin & ->)]].
  - split; [done|]. intros c Hc. by apply Hdom, Hsub.
  - split.
    + apply NoDup_app. split; [done|]. split; [|apply NoDup_singleton].
      intros x Hx ->%list_elem_of_singleton. by apply Hnin, Hsub.
    + intros c [Hc| ->%list_elem_of_singleton]%elem_of_app; [|done].
      by apply Hdom, Hsub.
Qed.

Lemma tasks_invariant requests : forall w,
  (NoDup (tasks_of w) /\ forall c, c ∈ tasks_of w -> c ∈ dom (users_of w)) ->
  NoDup (tasks_of (foldl serve w requests)) /\
  forall c, c ∈ tasks_of (foldl serve w requests) ->
            c ∈ dom (users_of (foldl serve w requests)).
Proof.
  induction requests as [|rq requests IH]; intros w Hinv; [done|].
  cbn [foldl]. by apply IH, tasks_invariant_step.
Qed.

Lemma known_channel_gets_no_task requests : forall w c,
  c ∈ dom (users_of w) -> c ∉ tasks_of w ->
  (c ∈ dom (users_of (foldl serve w requests))) /\ (c ∉ tasks_of (foldl serve w requests)).
Proof.
  induction requests as [|rq requests IH]; intros w c Hin Hnt; [done|].
  cbn [foldl]. apply IH.
  - by apply (serve_tasks w rq).
  - destruct (serve_tasks w rq) as [_ [->|(c' & Hnin & _ & ->)]]; [done|].
    intros [?| ->%list_elem_of_singleton]%elem_of_app; done.
Qed.

(** X11. Whatever requests the chat server has served since it started, no
    channel has two message delivery tasks, and every channel with a delivery
    task is a channel of channel_users. *)
Theorem one_delivery_task_per_channel (requests : list ChatServer.request) :
  NoDup (tasks_of (foldl serve ChatServer.initial requests)) /\
  forall c, c ∈ tasks_of (foldl serve ChatServer.initial requests) ->
            c ∈ dom (users_of (foldl serve ChatServer.initial requests)).
Proof.
  apply tasks_invariant. split; [apply NoDup_nil_2|]. intros c Hc. by inversion Hc.
Qed.

(** X12. leave_channel indexes the defaultdict channel_users, which creates
    the channel; ensure_channel_exists then finds it and does nothing.  So a
    channel whose first request is a leave (even from a session that is not
    logged in) never gets a message delivery task, whatever requests follow,
    joins included. *)
Theorem channel_first_left_has_no_delivery_task (before after : list ChatServer.request)
    (self : ChatServer.ChatUserSession) (payload : Payload) c :
  ChatServer.data_decode decode payload = Ok c ->
  c ∉ dom (users_of (foldl serve ChatServer.initial before)) ->
  (c ∈ dom (users_of
      (foldl serve
         (ChatServer.leave_channel decode self payload
            (foldl serve ChatServer.initial before)).2 after))) /\
  (c ∉ tasks_of
      (foldl serve
         (ChatServer.leave_channel decode self payload
            (foldl serve ChatServer.initial before)).2 after)).
Proof.
  intros Hdec Hnin.
  assert (NoDup (tasks_of (foldl serve ChatServer.initial before)) /\
          forall c, c ∈ tasks_of (foldl serve ChatServer.initial before) ->
                    c ∈ dom (users_of (foldl serve ChatServer.initial before)))
    as [_ Hsub].
  { apply tasks_invariant. split; [apply NoDup_nil_2|]. intros c0 Hc0. by inversion Hc0. }
  pose proof (leave_channel_spec self payload (foldl serve ChatServer.initial before)) as Hl.
  rewrite Hdec in Hl. cbn zeta in Hl. destruct Hl as (Ht & _ & Hu).
  apply known_channel_gets_no_task.
  - rewrite Hu, dom_insert_L. set_solver.
  - rewrite Ht. intros Hc. by apply Hnin, Hsub.
Qed.

(** X13. A logged-in session that has joined a channel stays a member of
    it, whatever requests are served, until a leave of that channel with that
    session id: joins and leaves of others, logins and uploads do not remove
    it, and neither does closing the connection of the session, which
    deletes the session from user_session_by_id only. *)
Theorem member_until_leave w (session : ChatServer.UserSessionData) (payload : Payload) c
    (requests : list ChatServer.request) :
  ChatServer.data_decode decode payload = Ok c ->
  Forall (fun rq => ~ ChatServer.leaves decode c (ChatServer.session_id session) rq) requests ->
  exists users,
    users_of (foldl serve (ChatServer.join_channel decode (Some session) payload w).2 requests)
      !! c = Some users /\
    ChatServer.session_id session ∈ users.
Proof.
  intros Hdec Hall.
  pose proof (join_channel_spec (Some session) payload w) as Hj.
  rewrite Hdec in Hj. cbn zeta in Hj. destruct Hj as (_ & _ & Hu).
  assert (exists users,
            users_of (ChatServer.join_channel decode (Some session) payload w).2 !! c
            = Some users /\ ChatServer.session_id session ∈ users) as (users & Hc & Hin).
  { rewrite Hu, lookup_insert_eq. eexists. split; [reflexivity|]. set_solver. }
  revert Hc Hin. generalize (ChatServer.join_channel decode (Some session) payload w).2.
  clear Hu. revert users.
  induction Hall as [|rq requests Hrq Hall IH]; intros users w0 Hc Hin; [by eauto|].
  cbn [foldl].
  destruct (serve_member w0 rq c _ users Hc Hin Hrq) as (users' & Hc' & Hin').
  by apply (IH users').
Qed.

Variable file_name_metadata : string -> bytes.

(** X14. A download returns the data of the last upload under that file
    name, whatever requests that do not upload under that name were served
    in between; and downloading a file name that was never uploaded raises
    KeyError. *)
Theorem download_returns_last_upload w (payload : Payload) (cm cm' : CompositeMetadata)
    (file_name : string) (requests : list ChatServer.request) :
  get_file_name cm' = Ok file_name ->
  Forall (fun rq => ~ uploads file_name rq) requests ->
  (get_file_name cm = Ok file_name ->
   ChatServer.download_file utf8_decode find_by_mimetype chat_filename_mimetype
     file_name_metadata cm'
     (foldl serve
        (ChatServer.upload_file utf8_decode find_by_mimetype chat_filename_mimetype
           payload cm w).2 requests)
   = Ok (ChatServer.reactivex_of
           (mkPayload (data payload) (Some (file_name_metadata file_name))))) /\
  ChatServer.download_file utf8_decode find_by_mimetype chat_filename_mimetype
    file_name_metadata cm' (foldl serve ChatServer.initial requests)
  = Raise (KeyError [VStr file_name]).
Proof.
  intros Hname Hall.
  assert (forall w0, files_of (foldl serve w0 requests) !! file_name
                     = files_of w0 !! file_name) as Hfiles.
  { induction Hall as [|rq requests Hrq Hall IH]; intros w0; [done|].
    cbn [foldl]. by rewrite IH, serve_files. }
  unfold ChatServer.download_file. rewrite Hname, !Hfiles. split.
  - intros Hcm. destruct (upload_file_spec payload cm w) as (_ & _ & ->).
    rewrite Hcm. by rewrite lookup_insert_eq.
  - done.
Qed.

End Chat.

Lemma channel_first_left_has_no_delivery_task_witness :
  let general := mkPayload (Some (b "general")) None in
  let left := (ChatServer.leave_channel decode_ascii None general ChatServer.initial).2 in
  let after := [ChatServer.JoinChannel (Some alice) general;
                ChatServer.JoinChannel (Some bob) general] in
  let w := foldl (ChatServer.serve decode_ascii ascii_utf8_decode b items_by_mimetype
                    (b "chat/file-name")) left after in
  ("general" ∈ dom (ChatServer.channel_users (ChatServer.chat_data w))) /\
  ("general" ∉ ChatServer.delivery_tasks w).
Proof.
  intros general left after w.
  apply (channel_first_left_has_no_delivery_task decode_ascii ascii_utf8_decode b
           items_by_mimetype (b "chat/file-name") [] after None general "general").
  - reflexivity.
  - apply not_elem_of_dom. reflexivity.
Defined.

Lemma member_until_leave_witness :
  let general := mkPayload (Some (b "general")) None in
  let random := mkPayload (Some (b "random")) None in
  let requests := [ChatServer.OnClose (Some alice);
                   ChatServer.LeaveChannel (Some bob) general;
                   ChatServer.LeaveChannel (Some alice) random] in
  exists users,
    ChatServer.channel_users
      (ChatServer.chat_data
         (foldl (ChatServer.serve decode_ascii ascii_utf8_decode b items_by_mimetype
                   (b "chat/file-name"))
            (ChatServer.join_channel decode_ascii (Some alice) general ChatServer.initial).2
            requests)) !! "general" = Some users /\
    "session-1" ∈ users.
Proof.
  intros general random requests.
  apply (member_until_leave decode_ascii ascii_utf8_decode b items_by_mimetype
           (b "chat/file-name") ChatServer.initial alice general "general" requests).
  - reflexivity.
  - constructor; [by intros []|].
    constructor; [intros [_ H]; discriminate H|].
    constructor; [intros [H _]; vm_compute in H; discriminate H|].
    constructor.
Defined.

Lemma download_returns_last_upload_witness :
  let requests := [ChatServer.UploadFile (mkPayload (Some (b "other")) None)
                     (file_name_item "b.txt");
                   ChatServer.JoinChannel (Some alice) (mkPayload (Some (b "general")) None);
                   ChatServer.OnClose (Some alice)] in
  ChatServer.download_file ascii_utf8_decode items_by_mimetype (b "chat/file-name") b
    (file_name_item "a.txt")
    (foldl (ChatServer.serve decode_ascii ascii_utf8_decode b items_by_mimetype
              (b "chat/file-name"))
       (ChatServer.upload_file ascii_utf8_decode items_by_mimetype (b "chat/file-name")
          (mkPayload (Some (b "content")) None) (file_name_item "a.txt")
          ChatServer.initial).2 requests)
  = Ok (ChatServer.reactivex_of (mkPayload (Some (b "content")) (Some (b "a.txt")))) /\
  ChatServer.download_file ascii_utf8_decode items_by_mimetype (b "chat/file-name") b
    (file_name_item "a.txt")
    (foldl (ChatServer.serve decode_ascii ascii_utf8_decode b items_by_mimetype
              (b "chat/file-name")) ChatServer.initial requests)
  = Raise (KeyError [VStr "a.txt"]).
Proof.
  intros requests.
  destruct (download_returns_last_upload decode_ascii ascii_utf8_decode b items_by_mimetype
              (b "chat/file-name") b ChatServer.initial
              (mkPayload (Some (b "content")) None)
              (file_name_item "a.txt") (file_name_item "a.txt") "a.txt" requests)
    as [H1 H2].
  - reflexivity.
  - constructor; [intros H; vm_compute in H; discriminate H|].
    constructor; [by intros []|]. constructor; [by intros []|]. constructor.
  - split; [apply H1; reflexivity|exact H2].
Defined.
